(** * Variables panel of the Webstudio builder

    A shallow embedding of
    [apps/builder/app/builder/features/settings-panel/variables.tsx]:
    the value parser of the variable editor ([parseVariableValue]), the
    store mutations ([renameVariable], [saveVariable], [deleteVariable]),
    the two derived stores ([$selectedInstanceVariables],
    [$usedVariables]), the prop binding ([setPropValue],
    [removeExpression]) and the click handlers that decide which mutation
    runs (the Save button of [VariableValuePanel], the delete button and
    the selection of a [ListItem]).

    JavaScript [Map]s and [Set]s keep insertion order and the code
    iterates over them, so they are association lists here.  Effects are
    explicit: the nanostores atoms are fields of a [World] record that
    every mutating function takes and returns. *)

From Stdlib Require Import List String Ascii Bool ZArith Lia.
From Stdlib Require Import Floats.SpecFloat.
Import ListNotations.

Set Warnings "-register-all".
Local Open Scope list_scope.
Local Open Scope string_scope.

(** ** JavaScript containers *)

(** [Map<string, V>]: at most one entry per key is ever created by
    [set]; iteration ([values]) follows insertion order, and [set] on a
    key that is present keeps the entry where it is. *)
Module JsMap.

Definition t (V : Type) : Type := list (string * V).

Definition empty {V : Type} : t V := [].

Fixpoint get {V : Type} (k : string) (m : t V) : option V :=
  match m with
  | [] => None
  | (k', v) :: rest => if String.eqb k k' then Some v else get k rest
  end.

Definition has {V : Type} (k : string) (m : t V) : bool :=
  match get k m with Some _ => true | None => false end.

Fixpoint set {V : Type} (k : string) (v : V) (m : t V) : t V :=
  match m with
  | [] => [(k, v)]
  | (k', v') :: rest =>
      if String.eqb k k' then (k, v) :: rest else (k', v') :: set k v rest
  end.

Fixpoint delete {V : Type} (k : string) (m : t V) : t V :=
  match m with
  | [] => []
  | (k', v') :: rest =>
      if String.eqb k k' then delete k rest else (k', v') :: delete k rest
  end.

Definition values {V : Type} (m : t V) : list V := List.map snd m.

End JsMap.

(** [Set<string>]: [add] appends a value that is not a member yet, so
    [Array.from] lists the members in the order they were first added. *)
Module JsSet.

Definition t : Type := list string.

Definition empty : t := [].

Definition has (x : string) (s : t) : bool := existsb (String.eqb x) s.

Definition add (x : string) (s : t) : t := if has x s then s else (s ++ [x])%list.

Definition size (s : t) : nat := List.length s.

(** Adding every element of a list, in order: what a callback that
    calls [add] once per invocation leaves behind. *)
Definition add_all (xs : list string) (s : t) : t :=
  fold_left (fun acc x => add x acc) xs s.

End JsSet.

(** ** JavaScript values *)

(** A number is an IEEE 754 binary64, as data. *)
Definition prec64 : Z := 53.
Definition emax64 : Z := 1024.

Inductive JSValue : Type :=
| VUndefined
| VNull
| VBoolean (b : bool)
| VNumber (x : spec_float)
| VString (s : string)
| VArray (items : list JSValue)
| VObject (fields : list (string * JSValue)).

(** The [typeof] operator, on the values above. *)
Definition typeof (v : JSValue) : string :=
  match v with
  | VUndefined => "undefined"
  | VNull => "object"
  | VBoolean _ => "boolean"
  | VNumber _ => "number"
  | VString _ => "string"
  | VArray _ => "object"
  | VObject _ => "object"
  end.

(** ** Entities of the project data

    The entity types are declared in [@webstudio-is/sdk]; the
    constructors and fields below are the ones this file reads or
    writes. *)

(** The [value] of a data source of type ["variable"]. *)
Inductive VariableValue : Type :=
| NumberValue (value : spec_float)          (* { type: "number", value } *)
| StringValue (value : string)              (* { type: "string", value } *)
| BooleanValue (value : bool)               (* { type: "boolean", value } *)
| StringArrayValue (value : list string)    (* { type: "string[]", value } *)
| JsonValue (value : JSValue).              (* { type: "json", value } *)

(** The discriminant [type] of a data source: the spec's kinds value,
    parameter and resource. *)
Inductive DataSourceType : Type := TVariable | TParameter | TResource.

Definition DataSourceType_eqb (a b : DataSourceType) : bool :=
  match a, b with
  | TVariable, TVariable | TParameter, TParameter | TResource, TResource => true
  | _, _ => false
  end.

(** [DataSource]: a union tagged by [type]; [scopeInstanceId] is
    optional in every member. *)
Inductive DataSource : Type :=
| variable (id : string) (scopeInstanceId : option string) (name : string)
           (value : VariableValue)
| parameter (id : string) (scopeInstanceId : option string) (name : string)
| resource (id : string) (scopeInstanceId : option string) (name : string)
           (resourceId : string).

Module DataSource.
Definition type (d : DataSource) : DataSourceType :=
  match d with
  | variable _ _ _ _ => TVariable
  | parameter _ _ _ => TParameter
  | resource _ _ _ _ => TResource
  end.

Definition id (d : DataSource) : string :=
  match d with
  | variable i _ _ _ | parameter i _ _ | resource i _ _ _ => i
  end.

Definition scopeInstanceId (d : DataSource) : option string :=
  match d with
  | variable _ s _ _ | parameter _ s _ | resource _ s _ _ => s
  end.

Definition name (d : DataSource) : string :=
  match d with
  | variable _ _ n _ | parameter _ _ n | resource _ _ n _ => n
  end.

(** The object spread [{ ...d, name }]. *)
Definition with_name (d : DataSource) (name : string) : DataSource :=
  match d with
  | variable i s _ v => variable i s name v
  | parameter i s _ => parameter i s name
  | resource i s _ r => resource i s name r
  end.
End DataSource.

(** A resource is opaque to this file: only its key in [$resources] is
    used. *)
Record Resource : Type := { resource_id : string; resource_name : string }.

Record Instance : Type := { instance_id : string; component : string }.

(** One step of an action prop; only [code] is read here. *)
Record ActionStep : Type := { args : list string; code : string }.

(** The part of a prop that depends on its [type]. *)
Inductive PropValue : Type :=
| ExpressionProp (value : string)           (* { type: "expression", value } *)
| ActionProp (value : list ActionStep)      (* { type: "action", value } *)
| LiteralProp (type : string) (value : JSValue).

(** [instanceId] is what the first element of the selector was when the
    prop was created, [None] for [undefined]. *)
Record WsProp : Type :=
  { prop_id : string; prop_instanceId : option string; prop_name : string;
    prop_value : PropValue }.

(** ** Stores and transactions *)

(** The contents of the four atoms [$dataSources], [$resources],
    [$props] and [$instances]. *)
Record Stores : Type :=
  { dataSources : JsMap.t DataSource;
    resources : JsMap.t Resource;
    props : JsMap.t WsProp;
    instances : JsMap.t Instance }.

(** The atoms a transaction can be opened on. *)
Inductive Container : Type := dataSourcesStore | resourcesStore | propsStore.

Definition Container_eqb (a b : Container) : bool :=
  match a, b with
  | dataSourcesStore, dataSourcesStore
  | resourcesStore, resourcesStore
  | propsStore, propsStore => true
  | _, _ => false
  end.

(** What the application can observe: the stores, the selected instance
    ([$selectedInstanceSelector], [None] when it is [undefined]) and the
    snapshots the sync store has committed so far, newest first. *)
Record World : Type :=
  { stores : Stores;
    selectedInstanceSelector : option (list string);
    committed : list Stores }.

(** A recipe runs on a draft of the stores and either finishes with a
    result or throws. *)
Inductive TxResult (A : Type) : Type :=
| TxDone (result : A) (draft : Stores)
| TxThrow (message : string).
Arguments TxDone {A} result draft.
Arguments TxThrow {A} message.

Definition Tx (A : Type) : Type := Stores -> TxResult A.

Definition tx_ret {A : Type} (a : A) : Tx A := fun draft => TxDone a draft.

Definition tx_bind {A B : Type} (m : Tx A) (k : A -> Tx B) : Tx B :=
  fun draft =>
    match m draft with
    | TxDone a draft' => k a draft'
    | TxThrow message => TxThrow message
    end.

Declare Scope tx_scope.
Delimit Scope tx_scope with tx.
Notation "x <- m ;; k" := (tx_bind m (fun x => k))
  (at level 61, m at next level, right associativity) : tx_scope.
Notation "m ;; k" := (tx_bind m (fun _ => k))
  (at level 61, right associativity) : tx_scope.

(** The [Map] methods the recipes of this file call on their drafts. *)
Module Draft.
Definition dataSources_get (id : string) : Tx (option DataSource) :=
  fun draft => TxDone (JsMap.get id (dataSources draft)) draft.

Definition dataSources_set (id : string) (d : DataSource) : Tx unit :=
  fun draft =>
    TxDone tt {| dataSources := JsMap.set id d (dataSources draft);
                 resources := resources draft;
                 props := props draft;
                 instances := instances draft |}.

Definition dataSources_delete (id : string) : Tx unit :=
  fun draft =>
    TxDone tt {| dataSources := JsMap.delete id (dataSources draft);
                 resources := resources draft;
                 props := props draft;
                 instances := instances draft |}.

Definition resources_delete (id : string) : Tx unit :=
  fun draft =>
    TxDone tt {| dataSources := dataSources draft;
                 resources := JsMap.delete id (resources draft);
                 props := props draft;
                 instances := instances draft |}.

Definition props_get (id : string) : Tx (option WsProp) :=
  fun draft => TxDone (JsMap.get id (props draft)) draft.

Definition props_set (id : string) (p : WsProp) : Tx unit :=
  fun draft =>
    TxDone tt {| dataSources := dataSources draft;
                 resources := resources draft;
                 props := JsMap.set id p (props draft);
                 instances := instances draft |}.

Definition props_delete (id : string) : Tx unit :=
  fun draft =>
    TxDone tt {| dataSources := dataSources draft;
                 resources := resources draft;
                 props := JsMap.delete id (props draft);
                 instances := instances draft |}.
End Draft.

(** Only the containers a transaction was opened on are written back. *)
Definition commit (containers : list Container) (old draft : Stores) : Stores :=
  let named c := existsb (Container_eqb c) containers in
  {| dataSources := if named dataSourcesStore then dataSources draft else dataSources old;
     resources := if named resourcesStore then resources draft else resources old;
     props := if named propsStore then props draft else props old;
     instances := instances old |}.

(** Modelled from the spec: [serverSyncStore.createTransaction] is
    defined in [~/shared/sync], which is not part of the sources at
    hand.  Following section 4.5, the recipe is given mutable views of
    exactly the named collections, and the coordinator commits all of its
    mutations as one unit or none: a recipe that finishes publishes one
    new snapshot, a recipe that throws leaves everything as it was. *)
Definition createTransaction (containers : list Container) (recipe : Tx unit)
    (w : World) : World :=
  match recipe (stores w) with
  | TxDone _ draft =>
      let next := commit containers (stores w) draft in
      {| stores := next;
         selectedInstanceSelector := selectedInstanceSelector w;
         committed := next :: committed w |}
  | TxThrow _ => w
  end.

(** ** The functions of [variables.tsx] *)

(** The options object handed to [validateExpression]; a field that the
    caller leaves out is [None]. *)
Record ValidateOptions : Type :=
  { effectful : option bool; optional : option bool }.

(** One call of [validateExpression] with a [transformIdentifier]
    callback that returns the identifier it is given, which is what every
    callback of this file does.  The call hands identifiers to the
    callback, in order, and then either returns the normalised code or
    throws an [Error] with a message.  What the callback did before a
    throw is not undone by the [catch] around the call, so the identifiers
    are recorded in both outcomes. *)
Inductive Validation : Type :=
| Accepted (identifiers : list string) (code : string)
| Rejected (identifiers : list string) (message : string).

Definition identifiers_of (run : Validation) : list string :=
  match run with
  | Accepted ids _ | Rejected ids _ => ids
  end.

(** The object [{ value?, error? }] that [parseVariableValue] builds. *)
Record ParseResult : Type :=
  { value : option JSValue; error : option string }.

(** The object [{ error }] that [saveVariable] returns on failure. *)
Record SaveError : Type := { save_error : option string }.

(** The local state of [VariableValuePanel] and a count of the calls of
    its [onCancel] prop. *)
Record PanelState : Type :=
  { panel_name : string;
    panel_value : string;
    nameErrors : option (list string);
    valueErrors : option (list string);
    onCancel_calls : nat }.

Section Variables.

(** [validateExpression] and the two functions of the identifier codec
    come from [@webstudio-is/react-sdk] and [collectionComponent] is a
    constant of that package; [jsEval] is the built-in [eval], returning the value
    or the message of the error it throws. *)
Variable validateExpression : string -> ValidateOptions -> Validation.
Variable decodeDataSourceVariable : string -> option string.
Variable encodeDataSourceVariable : string -> string.
Variable collectionComponent : string.
Variable jsEval : string -> JSValue + string.

Definition parseVariableValue (code : string) : ParseResult :=
  match validateExpression code {| effectful := None; optional := Some true |} with
  | Rejected _ message => {| value := None; error := Some message |}
  | Accepted identifiers code =>
      let ids := JsSet.add_all identifiers JsSet.empty in
      if Nat.eqb (JsSet.size ids) 0 then
        (* wrap with parentheses to treat {} as object instead of block *)
        match jsEval ("(" ++ code ++ ")") with
        | inl v => {| value := Some v; error := None |}
        | inr message =>
            {| value := None; error := Some ("Parse Error: " ++ message) |}
        end
      else
        let idsList := String.concat ", " ids in
        {| value := None;
           error := Some ("Cannot use variables " ++ idsList
                          ++ " as variable value") |}
  end.

Definition renameVariable (variable : DataSource) (name : string)
    (w : World) : World :=
  createTransaction [dataSourcesStore]
    (Draft.dataSources_set (DataSource.id variable)
       (DataSource.with_name variable name))
    w.

(** The value that [saveVariable] stores: [json] unless one of the three
    [typeof] tests, taken in their order, replaces it. *)
Definition variableValue_of (value : JSValue) : VariableValue :=
  let variableValue := JsonValue value in
  let variableValue :=
    if String.eqb (typeof value) "string"
    then match value with VString s => StringValue s | _ => variableValue end
    else variableValue in
  let variableValue :=
    if String.eqb (typeof value) "number"
    then match value with VNumber x => NumberValue x | _ => variableValue end
    else variableValue in
  let variableValue :=
    if String.eqb (typeof value) "boolean"
    then match value with VBoolean b => BooleanValue b | _ => variableValue end
    else variableValue in
  variableValue.

(** The recipe [saveVariable] hands to its transaction. *)
Definition saveVariable_recipe (dataSource : option DataSource)
    (dataSourceId : string) (instanceId : option string) (name : string)
    (value : JSValue) : Tx unit :=
  ((* cleanup resource when value variable is set *)
   match dataSource with
   | Some (resource _ _ _ resourceId) => Draft.resources_delete resourceId
   | _ => tx_ret tt
   end ;;
   existing <- Draft.dataSources_get dataSourceId ;;
   Draft.dataSources_set dataSourceId
     (variable dataSourceId
        (* preserve existing instance scope when edit *)
        match existing with
        | Some d =>
            match DataSource.scopeInstanceId d with
            | Some scope => Some scope
            | None => instanceId
            end
        | None => instanceId
        end
        name
        (variableValue_of value)))%tx.

(** [nanoid] is the id that a call of [nanoid()] would return. *)
Definition saveVariable (nanoid : string) (dataSource : option DataSource)
    (name valueString : string) (w : World) : option SaveError * World :=
  let dataSourceId :=
    match dataSource with Some d => DataSource.id d | None => nanoid end in
  let parsed := parseVariableValue valueString in
  match error parsed with
  | Some e => (Some {| save_error := Some e |}, w)
  | None =>
      match selectedInstanceSelector w with
      | None => (None, w)
      | Some instanceSelector =>
          let instanceId := hd_error instanceSelector in
          let value :=
            match value parsed with Some v => v | None => VUndefined end in
          (None,
           createTransaction [dataSourcesStore; resourcesStore]
             (saveVariable_recipe dataSource dataSourceId instanceId name value)
             w)
      end
  end.

(** The [onClick] of the Save button of [VariableValuePanel]. *)
Definition VariableValuePanel_onSave (nanoid : string)
    (variable : option DataSource) (st : PanelState) (w : World)
    : PanelState * World :=
  let name := panel_name st in
  if Nat.eqb (String.length name) 0 then
    ({| panel_name := panel_name st; panel_value := panel_value st;
        nameErrors := Some ["Variable name is required"];
        valueErrors := valueErrors st;
        onCancel_calls := onCancel_calls st |}, w)
  else
    let '(st, w) :=
      match variable with
      | Some (parameter _ _ _ as p) =>
          ({| panel_name := panel_name st; panel_value := panel_value st;
              nameErrors := nameErrors st; valueErrors := valueErrors st;
              onCancel_calls := S (onCancel_calls st) |},
           renameVariable p name w)
      | _ => (st, w)
      end in
    (* save value variable and convert from resource variable if necessary *)
    let '(result, w) := saveVariable nanoid variable name (panel_value st) w in
    match result with
    | Some {| save_error := Some e |} =>
        ({| panel_name := panel_name st; panel_value := panel_value st;
            nameErrors := nameErrors st; valueErrors := Some [e];
            onCancel_calls := onCancel_calls st |}, w)
    | _ =>
        ({| panel_name := panel_name st; panel_value := panel_value st;
            nameErrors := nameErrors st; valueErrors := valueErrors st;
            onCancel_calls := S (onCancel_calls st) |}, w)
    end.

(** [===] on two values that are a string or [undefined]. *)
Definition option_string_eqb (a b : option string) : bool :=
  match a, b with
  | Some x, Some y => String.eqb x y
  | None, None => true
  | _, _ => false
  end.

(** [Array.prototype.includes] on an array of strings. *)
Definition includes (xs : list string) (x : string) : bool :=
  existsb (String.eqb x) xs.

(** [$selectedInstanceVariables]. *)
Definition selectedInstanceVariables (instanceSelector : option (list string))
    (dataSources : JsMap.t DataSource) (instances : JsMap.t Instance)
    : list DataSource :=
  match instanceSelector with
  | None => []
  | Some instanceSelector =>
      fold_left
        (fun matchedVariables dataSource =>
           let instanceId := hd_error instanceSelector in
           (* prevent showing "item" parameter on collection component
              to avoid circular undefined variable runtime error *)
           if DataSourceType_eqb (DataSource.type dataSource) TParameter
              && option_string_eqb instanceId
                   (DataSource.scopeInstanceId dataSource)
              && match instanceId with
                 | Some i =>
                     match JsMap.get i instances with
                     | Some inst => String.eqb (component inst) collectionComponent
                     | None => false
                     end
                 | None => false
                 end
           then matchedVariables
           else
             match DataSource.scopeInstanceId dataSource with
             | Some scope =>
                 if includes instanceSelector scope
                 then (matchedVariables ++ [dataSource])%list
                 else matchedVariables
             | None => matchedVariables
             end)
        (JsMap.values dataSources) []
  end.

(** The callback of [$usedVariables], run on the identifiers that one
    call of [validateExpression] hands to it.  The [try] around the
    call has an empty [catch], so the outcome of the call is not
    looked at. *)
Definition collect (usedVariables : JsSet.t) (run : Validation) : JsSet.t :=
  fold_left
    (fun used identifier =>
       match decodeDataSourceVariable identifier with
       | Some id => JsSet.add id used
       | None => used
       end)
    (identifiers_of run) usedVariables.

(** The body of the loop of [$usedVariables] for one prop. *)
Definition usedVariables_prop (usedVariables : JsSet.t) (prop : WsProp) : JsSet.t :=
  let usedVariables :=
    match prop_value prop with
    | ExpressionProp value =>
        collect usedVariables
          (validateExpression value {| effectful := None; optional := None |})
    | _ => usedVariables
    end in
  match prop_value prop with
  | ActionProp steps =>
      fold_left
        (fun usedVariables step =>
           collect usedVariables
             (validateExpression (code step)
                {| effectful := Some true; optional := None |}))
        steps usedVariables
  | _ => usedVariables
  end.

(** [$usedVariables]. *)
Definition usedVariables (props : JsMap.t WsProp) : JsSet.t :=
  fold_left usedVariables_prop (JsMap.values props) JsSet.empty.

Definition deleteVariable (variable : DataSource) (w : World) : World :=
  createTransaction [dataSourcesStore]
    (Draft.dataSources_delete (DataSource.id variable)) w.

(** The [deletable] prop that [ListPanel] computes for a list item. *)
Definition deletable (variable : DataSource) (used : JsSet.t) : bool :=
  DataSourceType_eqb (DataSource.type variable) TVariable
  && Bool.eqb (JsSet.has (DataSource.id variable) used) false.

(** A click on the delete button of [ListItem]: the button is
    [disabled] when [deletable] is false, and a disabled button does
    not run its [onClick]. *)
Definition ListItem_onDelete (variable : DataSource) (w : World) : World :=
  if deletable variable (usedVariables (props (stores w)))
  then deleteVariable variable w
  else w.

(** [setPropValue]; [nanoid] is the id that a call of [nanoid()] would
    return. *)
Definition setPropValue (nanoid : string) (propId : option string)
    (propName : string) (propValue : PropValue) (w : World) : World :=
  match selectedInstanceSelector w with
  | None => w
  | Some instanceSelector =>
      let instanceId := hd_error instanceSelector in
      createTransaction [propsStore]
        (prop <- match propId with
                 | None => tx_ret None
                 | Some id => Draft.props_get id
                 end ;;
         (* create new prop or update existing one *)
         let prop :=
           match prop with
           | None =>
               {| prop_id := nanoid; prop_instanceId := instanceId;
                  prop_name := propName; prop_value := propValue |}
           | Some prop =>
               {| prop_id := prop_id prop; prop_instanceId := prop_instanceId prop;
                  prop_name := prop_name prop; prop_value := propValue |}
           end in
         Draft.props_set (prop_id prop) prop)%tx
        w
  end.

(** [removeExpression] of [VariablesPanel]; [startingValue] is the result
    of [getStartingValue(propMeta)]. *)
Definition removeExpression (nanoid : string) (startingValue : option PropValue)
    (propId : option string) (propName : string) (w : World) : World :=
  match startingValue with
  | Some propValue => setPropValue nanoid propId propName propValue w
  | None =>
      match propId with
      | Some propId =>
          (* delete prop when not possible to infer default value from meta *)
          createTransaction [propsStore] (Draft.props_delete propId) w
      | None => w
      end
  end.

(** [onSelect] of a list item, through [onChange] of [VariablesPanel]:
    the prop is bound to the variable. *)
Definition ListItem_onSelect (nanoid : string) (propId : option string)
    (propName : string) (variable : DataSource) (w : World) : World :=
  setPropValue nanoid propId propName
    (ExpressionProp (encodeDataSourceVariable (DataSource.id variable))) w.

(** [getExpressionVariables]: the call of [validateExpression] is not
    inside a [try], so its error is the error of the function. *)
Definition getExpressionVariables (expression : string) : JsSet.t + string :=
  let variableIds := JsSet.empty in
  if String.eqb expression EmptyString then inl variableIds
  else
    match validateExpression expression {| effectful := None; optional := None |} with
    | Accepted _ _ as run => inl (collect variableIds run)
    | Rejected _ message => inr message
    end.

(** The [prop] that [VariablesPanel] computes from [$props]: looked up
    only when [propId] is truthy, so neither for [undefined] nor for the
    empty string. *)
Definition VariablesPanel_prop (propId : option string) (w : World)
    : option WsProp :=
  match propId with
  | Some id =>
      if String.eqb id EmptyString then None
      else JsMap.get id (props (stores w))
  | None => None
  end.

(** [propExpression] of [ListPanel]. *)
Definition propExpression (prop : option WsProp) : string :=
  match prop with
  | Some p =>
      match prop_value p with
      | ExpressionProp value => value
      | _ => EmptyString
      end
  | None => EmptyString
  end.

(** [matchedVariables] of [ListPanel]: the current value of
    [$selectedInstanceVariables]. *)
Definition ListPanel_matchedVariables (w : World) : list DataSource :=
  selectedInstanceVariables (selectedInstanceSelector w)
    (dataSources (stores w)) (instances (stores w)).

(** [editorAliases] of [ListPanel]. *)
Definition editorAliases (matchedVariables : list DataSource) : JsMap.t string :=
  fold_left
    (fun aliases variable =>
       JsMap.set (encodeDataSourceVariable (DataSource.id variable))
         (DataSource.name variable) aliases)
    matchedVariables JsMap.empty.

(** Whether a call of [validateExpression] returns when its callback
    throws on the identifiers outside [allowed] and returns the others
    unchanged.  The callback is handed the same identifiers, in the same
    order, as a callback that returns them all; an error that it throws
    ends the call, and so does an error of the validator. *)
Definition returns_with (allowed : string -> bool) (run : Validation) : bool :=
  forallb allowed (identifiers_of run)
  && match run with Accepted _ _ => true | Rejected _ _ => false end.

(** [onChange] of the [ListPanel] that [VariablesPanel] renders. *)
Definition VariablesPanel_onChange (nanoid : string)
    (startingValue : option PropValue) (propId : option string)
    (propName : string) (propValue : option PropValue) (w : World) : World :=
  match propValue with
  | None => removeExpression nanoid startingValue propId propName w
  | Some propValue => setPropValue nanoid propId propName propValue w
  end.

(** [trim] is the built-in [String.prototype.trim]. *)
Variable trim : string -> string.

(** [onBlur] of the expression editor of [ListPanel], on the local state
    [expression] ([None] for [undefined]); the result is the new local
    state and the new world. *)
Definition ListPanel_onBlur (nanoid : string) (startingValue : option PropValue)
    (propId : option string) (propName : string) (expression : option string)
    (w : World) : option string * World :=
  match expression with
  | None =>
      (* skip when expression is not changed *)
      (expression, w)
  | Some text =>
      if String.eqb (trim text) EmptyString then
        (None, VariablesPanel_onChange nanoid startingValue propId propName None w)
      else
        let editorAliases := editorAliases (ListPanel_matchedVariables w) in
        if returns_with (fun id => JsMap.has id editorAliases)
             (validateExpression text {| effectful := None; optional := None |})
        then
          (None,
           VariablesPanel_onChange nanoid startingValue propId propName
             (Some (ExpressionProp text)) w)
        else (expression, w)
  end.

End Variables.

(** ** A restricted expression language

    [validateExpression] and the identifier codec are defined in
    [@webstudio-is/react-sdk], which is not part of the sources at hand,
    and [eval] is a built-in.  This module gives one validator, one
    evaluator and one codec that follow sections 4.1 and 4.3 of the
    specification on a fragment of the grammar:
    decimal integer literals, string literals without escapes, [true],
    [false], [null], identifiers, unary [-] and [!], binary [+ - * /],
    the conditional, member access by name, array and object literals,
    parentheses and, when [effectful] is set, the call form
    [name(arguments)].  Text outside the fragment is rejected.  The
    general results of this file do not depend on this module; it
    supplies the concrete instances. *)
Module Expression.

Inductive Token : Type :=
| TNumber (raw : string)
| TString (quote : ascii) (chars : string)
| TName (name : string)
| TPunct (c : ascii).

Definition between (lo hi c : ascii) : bool :=
  Nat.leb (nat_of_ascii lo) (nat_of_ascii c)
  && Nat.leb (nat_of_ascii c) (nat_of_ascii hi).

Definition isDigit (c : ascii) : bool := between "0" "9" c.

Definition isNameStart (c : ascii) : bool :=
  between "a" "z" c || between "A" "Z" c || Ascii.eqb c "_" || Ascii.eqb c "$".

Definition isNamePart (c : ascii) : bool := isNameStart c || isDigit c.

Definition isSpace (c : ascii) : bool :=
  Ascii.eqb c " " || Ascii.eqb c "009" || Ascii.eqb c "010" || Ascii.eqb c "013".

Definition isQuote (c : ascii) : bool := Ascii.eqb c "034" || Ascii.eqb c "'".

Definition isPunct (c : ascii) : bool :=
  existsb (Ascii.eqb c)
    ["+"; "-"; "*"; "/"; "("; ")"; "["; "]"; "{"; "}"; ","; ":"; "."; "?"; "!"]%char.

(** The longest prefix whose characters satisfy [p], and the rest. *)
Fixpoint span (p : ascii -> bool) (s : string) : string * string :=
  match s with
  | EmptyString => (EmptyString, EmptyString)
  | String c rest =>
      if p c then let '(taken, more) := span p rest in (String c taken, more)
      else (EmptyString, s)
  end.

(** The characters up to the closing [quote], and what follows it; a
    backslash or a line terminator inside the literal is refused. *)
Fixpoint string_body (quote : ascii) (s : string) : option (string * string) :=
  match s with
  | EmptyString => None
  | String c rest =>
      if Ascii.eqb c quote then Some (EmptyString, rest)
      else if Ascii.eqb c "\" || Ascii.eqb c "010" || Ascii.eqb c "013" then None
      else
        match string_body quote rest with
        | Some (chars, more) => Some (String c chars, more)
        | None => None
        end
  end.

Fixpoint lex (fuel : nat) (s : string) : option (list Token) :=
  match fuel with
  | O => None
  | S fuel =>
      match s with
      | EmptyString => Some []
      | String c rest =>
          if isSpace c then lex fuel rest
          else if isDigit c then
            let '(raw, more) := span isDigit s in
            (* a zero followed by digits is not a decimal literal *)
            if Ascii.eqb c "0" && negb (String.eqb raw "0") then None
            else option_map (cons (TNumber raw)) (lex fuel more)
          else if isNameStart c then
            let '(name, more) := span isNamePart s in
            option_map (cons (TName name)) (lex fuel more)
          else if isQuote c then
            match string_body c rest with
            | Some (chars, more) => option_map (cons (TString c chars)) (lex fuel more)
            | None => None
            end
          else if isPunct c then option_map (cons (TPunct c)) (lex fuel rest)
          else None
      end
  end.

Definition tokens (s : string) : option (list Token) :=
  lex (S (String.length s)) s.

Inductive Key : Type :=
| KName (name : string)
| KString (quote : ascii) (chars : string).

Inductive Expr : Type :=
| Num (raw : string)
| Str (quote : ascii) (chars : string)
| Bool (b : bool)
| Null
| Ident (name : string)
| Unary (op : ascii) (e : Expr)
| Binary (op : ascii) (l r : Expr)
| Conditional (test consequent alternate : Expr)
| ArrayLit (items : list Expr)
| ObjectLit (fields : list (Key * Expr))
| Member (object : Expr) (property : string)
| Call (callee : string) (arguments : list Expr)
| Paren (e : Expr).

Definition is_punct (c : ascii) (t : Token) : bool :=
  match t with TPunct c' => Ascii.eqb c c' | _ => false end.

(** The reserved words of the language other than the three literals. *)
Definition reserved : list string :=
  ["await"; "break"; "case"; "catch"; "class"; "const"; "continue";
   "debugger"; "default"; "delete"; "do"; "else"; "enum"; "export";
   "extends"; "finally"; "for"; "function"; "if"; "implements"; "import";
   "in"; "instanceof"; "interface"; "let"; "new"; "package"; "private";
   "protected"; "public"; "return"; "static"; "super"; "switch"; "this";
   "throw"; "try"; "typeof"; "var"; "void"; "while"; "with"; "yield"].

Definition keyword (name : string) : option Expr :=
  if String.eqb name "true" then Some (Bool true)
  else if String.eqb name "false" then Some (Bool false)
  else if String.eqb name "null" then Some Null
  else if existsb (String.eqb name) reserved then None
  else Some (Ident name).

Notation "'let?' p ':=' m 'in' k" :=
  (match m with Some p => k | None => None end)
  (at level 10, p pattern, m at level 100, k at level 200).

Definition Parser (A : Type) : Type := list Token -> option (A * list Token).

(** Member access by name, applied as long as a dot and a name follow. *)
Fixpoint memberRest (e : Expr) (toks : list Token) : option (Expr * list Token) :=
  match toks with
  | TPunct op :: TName property :: rest =>
      if Ascii.eqb op "." then memberRest (Member e property) rest
      else Some (e, toks)
  | _ => Some (e, toks)
  end.

(** Recursive descent, one function per level of the grammar; every call
    spends one unit of [fuel]. *)
Fixpoint parseExpr (effectful : bool) (fuel : nat) : Parser Expr :=
  fun toks =>
    match fuel with
    | O => None
    | S fuel =>
        let? (test, rest) := parseAdditive effectful fuel toks in
        match rest with
        | t :: rest1 =>
            if is_punct "?" t then
              let? (consequent, rest2) := parseExpr effectful fuel rest1 in
              match rest2 with
              | t2 :: rest3 =>
                  if is_punct ":" t2 then
                    let? (alternate, rest4) := parseExpr effectful fuel rest3 in
                    Some (Conditional test consequent alternate, rest4)
                  else None
              | [] => None
              end
            else Some (test, rest)
        | [] => Some (test, rest)
        end
    end
with parseAdditive (effectful : bool) (fuel : nat) : Parser Expr :=
  fun toks =>
    match fuel with
    | O => None
    | S fuel =>
        let? (l, rest) := parseMultiplicative effectful fuel toks in
        additiveRest effectful fuel l rest
    end
with additiveRest (effectful : bool) (fuel : nat) (l : Expr) : Parser Expr :=
  fun toks =>
    match fuel with
    | O => None
    | S fuel =>
        match toks with
        | TPunct op :: rest =>
            if Ascii.eqb op "+" || Ascii.eqb op "-" then
              let? (r, rest') := parseMultiplicative effectful fuel rest in
              additiveRest effectful fuel (Binary op l r) rest'
            else Some (l, toks)
        | _ => Some (l, toks)
        end
    end
with parseMultiplicative (effectful : bool) (fuel : nat) : Parser Expr :=
  fun toks =>
    match fuel with
    | O => None
    | S fuel =>
        let? (l, rest) := parseUnary effectful fuel toks in
        multiplicativeRest effectful fuel l rest
    end
with multiplicativeRest (effectful : bool) (fuel : nat) (l : Expr) : Parser Expr :=
  fun toks =>
    match fuel with
    | O => None
    | S fuel =>
        match toks with
        | TPunct op :: rest =>
            if Ascii.eqb op "*" || Ascii.eqb op "/" then
              let? (r, rest') := parseUnary effectful fuel rest in
              multiplicativeRest effectful fuel (Binary op l r) rest'
            else Some (l, toks)
        | _ => Some (l, toks)
        end
    end
with parseUnary (effectful : bool) (fuel : nat) : Parser Expr :=
  fun toks =>
    match fuel with
    | O => None
    | S fuel =>
        match toks with
        | TPunct op :: rest =>
            if Ascii.eqb op "-" || Ascii.eqb op "!" then
              let? (e, rest') := parseUnary effectful fuel rest in
              Some (Unary op e, rest')
            else
              let? (e, rest') := parsePrimary effectful fuel toks in
              memberRest e rest'
        | _ =>
            let? (e, rest') := parsePrimary effectful fuel toks in
            memberRest e rest'
        end
    end
with parsePrimary (effectful : bool) (fuel : nat) : Parser Expr :=
  fun toks =>
    match fuel with
    | O => None
    | S fuel =>
        match toks with
        | TNumber raw :: rest => Some (Num raw, rest)
        | TString quote chars :: rest => Some (Str quote chars, rest)
        | TName name :: rest =>
            match rest with
            | TPunct "("%char :: rest1 =>
                if effectful && negb (existsb (String.eqb name) reserved) then
                  let? (arguments, rest2) := parseItems effectful fuel ")" rest1 in
                  Some (Call name arguments, rest2)
                else None
            | _ => let? e := keyword name in Some (e, rest)
            end
        | TPunct op :: rest =>
            if Ascii.eqb op "(" then
              let? (e, rest1) := parseExpr effectful fuel rest in
              match rest1 with
              | t :: rest2 => if is_punct ")" t then Some (Paren e, rest2) else None
              | [] => None
              end
            else if Ascii.eqb op "[" then
              let? (items, rest1) := parseItems effectful fuel "]" rest in
              Some (ArrayLit items, rest1)
            else if Ascii.eqb op "{" then
              let? (fields, rest1) := parseFields effectful fuel rest in
              Some (ObjectLit fields, rest1)
            else None
        | [] => None
        end
    end
with parseItems (effectful : bool) (fuel : nat) (close : ascii) : Parser (list Expr) :=
  fun toks =>
    match fuel with
    | O => None
    | S fuel =>
        match toks with
        | [] => None
        | t :: rest =>
            if is_punct close t then Some ([], rest)
            else
              let? (item, rest1) := parseExpr effectful fuel toks in
              match rest1 with
              | t1 :: rest2 =>
                  if is_punct "," t1 then
                    let? (items, rest3) := parseItems effectful fuel close rest2 in
                    Some (item :: items, rest3)
                  else if is_punct close t1 then Some ([item], rest2)
                  else None
              | [] => None
              end
        end
    end
with parseFields (effectful : bool) (fuel : nat) : Parser (list (Key * Expr)) :=
  fun toks =>
    match fuel with
    | O => None
    | S fuel =>
        match toks with
        | [] => None
        | t :: rest =>
            if is_punct "}" t then Some ([], rest)
            else
              let? key :=
                match t with
                | TName name => Some (KName name)
                | TString quote chars =>
                    (* a key that reads as an index is ordered before the
                       others in the object; such keys are left out *)
                    match chars with
                    | String c _ => if isDigit c then None else Some (KString quote chars)
                    | EmptyString => Some (KString quote chars)
                    end
                | _ => None
                end in
              match rest with
              | colon :: rest1 =>
                  if is_punct ":" colon then
                    let? (v, rest2) := parseExpr effectful fuel rest1 in
                    match rest2 with
                    | t2 :: rest3 =>
                        if is_punct "," t2 then
                          let? (fields, rest4) := parseFields effectful fuel rest3 in
                          Some ((key, v) :: fields, rest4)
                        else if is_punct "}" t2 then Some ([(key, v)], rest3)
                        else None
                    | [] => None
                    end
                  else None
              | [] => None
              end
        end
    end.

(** A whole text as one expression. *)
Definition parse (effectful : bool) (toks : list Token) : option Expr :=
  match parseExpr effectful (8 * List.length toks + 8) toks with
  | Some (e, []) => Some e
  | _ => None
  end.

(** The normalised text of an expression. *)
Definition printKey (k : Key) : string :=
  match k with
  | KName name => name
  | KString quote chars => String quote (chars ++ String quote EmptyString)
  end.

Fixpoint print (e : Expr) : string :=
  match e with
  | Num raw => raw
  | Str quote chars => String quote (chars ++ String quote EmptyString)
  | Bool true => "true"
  | Bool false => "false"
  | Null => "null"
  | Ident name => name
  | Unary op e => String op (print e)
  | Binary op l r => print l ++ " " ++ String op (" " ++ print r)
  | Conditional test consequent alternate =>
      print test ++ " ? " ++ print consequent ++ " : " ++ print alternate
  | ArrayLit items => "[" ++ String.concat ", " (List.map print items) ++ "]"
  | ObjectLit fields =>
      "{" ++ String.concat ", "
               (List.map (fun kv => printKey (fst kv) ++ ": " ++ print (snd kv)) fields)
          ++ "}"
  | Member object property => print object ++ "." ++ property
  | Call callee arguments =>
      callee ++ "(" ++ String.concat ", " (List.map print arguments) ++ ")"
  | Paren e => "(" ++ print e ++ ")"
  end.

(** The bare identifiers of an expression, left to right: the calls of
    [transformIdentifier].  A property name and the name of an effect
    call are not references. *)
Fixpoint identifiers (e : Expr) : list string :=
  match e with
  | Num _ | Str _ _ | Bool _ | Null => []
  | Ident name => [name]
  | Unary _ e => identifiers e
  | Binary _ l r => (identifiers l ++ identifiers r)%list
  | Conditional test consequent alternate =>
      (identifiers test ++ identifiers consequent ++ identifiers alternate)%list
  | ArrayLit items => List.flat_map identifiers items
  | ObjectLit fields => List.flat_map (fun kv => identifiers (snd kv)) fields
  | Member object _ => identifiers object
  | Call _ arguments => List.flat_map identifiers arguments
  | Paren e => identifiers e
  end.

(** Modelled from the spec: [validateExpression] of
    [@webstudio-is/react-sdk], after [validate(text, options)] of
    section 4.3.  [optional] makes the empty text valid, [effectful]
    permits the call form, and the callback is invoked once per bare
    identifier; the text is parsed in full before any identifier is
    reported, so a text that is rejected reports none. *)
Definition validateExpression (code : string) (options : ValidateOptions)
    : Validation :=
  let effectful :=
    match effectful options with Some b => b | None => false end in
  let optional :=
    match optional options with Some b => b | None => false end in
  match tokens code with
  | None => Rejected [] "Unexpected character"
  | Some [] =>
      if optional then Accepted [] EmptyString
      else Rejected [] "Cannot parse empty expression"
  | Some toks =>
      match parse effectful toks with
      | Some e => Accepted (identifiers e) (print e)
      | None => Rejected [] "Unexpected token"
      end
  end.

(** The prefix reserved for the identifiers that stand for variables. *)
Definition dataSourceVariablePrefix : string := "$ws$dataSource$".

(** Letters and digits are written as they are in an encoded id. *)
Definition isAlnum (c : ascii) : bool :=
  between "a" "z" c || between "A" "Z" c || isDigit c.

Definition digit_of (n : nat) : ascii := ascii_of_nat (nat_of_ascii "0" + n).

(** Any other character is written as an underscore and the three
    decimal digits of its code. *)
Definition escape_char (c : ascii) : string :=
  if isAlnum c then String c EmptyString
  else
    let n := nat_of_ascii c in
    String "_"
      (String (digit_of (n / 100))
         (String (digit_of ((n / 10) mod 10))
            (String (digit_of (n mod 10)) EmptyString))).

Fixpoint escape (id : string) : string :=
  match id with
  | EmptyString => EmptyString
  | String c rest => escape_char c ++ escape rest
  end.

Definition digit_value_of (c : ascii) : nat := nat_of_ascii c - nat_of_ascii "0".

(** The text that [escape] wrote, read back; a text that [escape] cannot
    have written is refused. *)
Fixpoint unescape (s : string) : option string :=
  match s with
  | EmptyString => Some EmptyString
  | String c rest =>
      if isAlnum c then option_map (String c) (unescape rest)
      else if Ascii.eqb c "_" then
        match rest with
        | String d1 (String d2 (String d3 rest')) =>
            let n := 100 * digit_value_of d1 + 10 * digit_value_of d2
                     + digit_value_of d3 in
            if isDigit d1 && isDigit d2 && isDigit d3 && Nat.ltb n 256
               && negb (isAlnum (ascii_of_nat n))
            then option_map (String (ascii_of_nat n)) (unescape rest')
            else None
        | _ => None
        end
      else None
  end.

(** What follows the prefix [p] in [s], when [s] starts with it. *)
Fixpoint strip_prefix (p s : string) : option string :=
  match p with
  | EmptyString => Some s
  | String c p' =>
      match s with
      | String c' s' => if Ascii.eqb c c' then strip_prefix p' s' else None
      | EmptyString => None
      end
  end.

(** Modelled from the spec: [encodeDataSourceVariable] of
    [@webstudio-is/react-sdk], after [encode] of section 4.1: the
    reserved prefix followed by the id, in which every character that is
    not a letter or a digit is escaped, so that the result is made of
    identifier characters only and no two ids share it. *)
Definition encodeDataSourceVariable (id : string) : string :=
  dataSourceVariablePrefix ++ escape id.

(** Modelled from the spec: [decodeDataSourceVariable] of
    [@webstudio-is/react-sdk], after [decode] of section 4.1: the id
    whose encoding the identifier is, and none for an identifier that
    does not start with the reserved prefix or does not continue as an
    encoding does. *)
Definition decodeDataSourceVariable (name : string) : option string :=
  match strip_prefix dataSourceVariablePrefix name with
  | Some rest => unescape rest
  | None => None
  end.

(** The value of a decimal integer literal, rounded to binary64. *)
Definition digit_value (c : ascii) : Z :=
  Z.of_nat (nat_of_ascii c - nat_of_ascii "0").

Fixpoint decimal (acc : Z) (raw : string) : Z :=
  match raw with
  | EmptyString => acc
  | String c rest => decimal (10 * acc + digit_value c) rest
  end.

Definition number_of_literal (raw : string) : spec_float :=
  binary_normalize prec64 emax64 (decimal 0 raw) 0 false.

(** [ToBoolean]. *)
Definition truthy (v : JSValue) : bool :=
  match v with
  | VUndefined | VNull => false
  | VBoolean b => b
  | VNumber (S754_zero _) | VNumber S754_nan => false
  | VNumber _ => true
  | VString s => negb (String.eqb s EmptyString)
  | VArray _ | VObject _ => true
  end.

Definition key_name (k : Key) : string :=
  match k with KName name => name | KString _ chars => chars end.

Definition outside : string := "not in the evaluated fragment".

Definition arithmetic (op : ascii) (x y : spec_float) : JSValue + string :=
  if Ascii.eqb op "+" then inl (VNumber (SFadd prec64 emax64 x y))
  else if Ascii.eqb op "-" then inl (VNumber (SFsub prec64 emax64 x y))
  else if Ascii.eqb op "*" then inl (VNumber (SFmul prec64 emax64 x y))
  else if Ascii.eqb op "/" then inl (VNumber (SFdiv prec64 emax64 x y))
  else inr outside.

(** The value of an expression that needs nothing from a scope.  An
    operand of a type that would need a conversion is refused rather
    than converted. *)
Fixpoint evaluate (e : Expr) : JSValue + string :=
  match e with
  | Num raw => inl (VNumber (number_of_literal raw))
  | Str _ chars => inl (VString chars)
  | Bool b => inl (VBoolean b)
  | Null => inl VNull
  | Ident name =>
      (* the three global constants; any other name needs a scope *)
      if String.eqb name "undefined" then inl VUndefined
      else if String.eqb name "NaN" then inl (VNumber S754_nan)
      else if String.eqb name "Infinity" then inl (VNumber (S754_infinity false))
      else inr outside
  | Unary op e =>
      match evaluate e with
      | inr message => inr message
      | inl v =>
          if Ascii.eqb op "!" then inl (VBoolean (negb (truthy v)))
          else match v with
               | VNumber x => inl (VNumber (SFopp x))
               | _ => inr outside
               end
      end
  | Binary op l r =>
      match evaluate l with
      | inr message => inr message
      | inl vl =>
          match evaluate r with
          | inr message => inr message
          | inl vr =>
              match vl, vr with
              | VNumber x, VNumber y => arithmetic op x y
              | VString a, VString b =>
                  if Ascii.eqb op "+" then inl (VString (a ++ b)) else inr outside
              | _, _ => inr outside
              end
          end
      end
  | Conditional test consequent alternate =>
      match evaluate test with
      | inr message => inr message
      | inl v => if truthy v then evaluate consequent else evaluate alternate
      end
  | ArrayLit items =>
      match
        (fix each (es : list Expr) : list JSValue + string :=
           match es with
           | [] => inl []
           | x :: xs =>
               match evaluate x with
               | inr message => inr message
               | inl v =>
                   match each xs with
                   | inr message => inr message
                   | inl vs => inl (v :: vs)
                   end
               end
           end) items
      with
      | inl vs => inl (VArray vs)
      | inr message => inr message
      end
  | ObjectLit fields =>
      match
        (fix each (acc : JsMap.t JSValue) (kvs : list (Key * Expr))
           : JsMap.t JSValue + string :=
           match kvs with
           | [] => inl acc
           | (k, x) :: rest =>
               match evaluate x with
               | inr message => inr message
               | inl v =>
                   (* the key __proto__ sets the prototype instead *)
                   if String.eqb (key_name k) "__proto__" then inr outside
                   else each (JsMap.set (key_name k) v acc) rest
               end
           end) JsMap.empty fields
      with
      | inl obj => inl (VObject obj)
      | inr message => inr message
      end
  | Member object property =>
      match evaluate object with
      | inr message => inr message
      | inl (VObject obj) =>
          (* a name that is not an own property is looked up in the
             prototype, which is not modelled *)
          match JsMap.get property obj with
          | Some v => inl v
          | None => inr outside
          end
      | inl _ => inr outside
      end
  | Call _ _ => inr outside
  | Paren e => evaluate e
  end.

(** Modelled from the spec: the built-in [eval], after [evaluate] of
    section 4.3, on a program text.  A text that is the two braces alone
    is an empty block, whose completion value is [undefined]; any other
    text that opens with a brace is a statement and is outside the
    fragment; the rest is read as one expression. *)
Definition jsEval (source : string) : JSValue + string :=
  match tokens source with
  | None => inr "Invalid or unexpected token"
  | Some [] => inl VUndefined
  | Some (TPunct "{"%char :: rest) =>
      match rest with
      | [TPunct "}"%char] => inl VUndefined
      | _ => inr outside
      end
  | Some toks =>
      match parse true toks with
      | Some e => evaluate e
      | None => inr "Unexpected token"
      end
  end.

End Expression.

(** ** A validator that reports while it walks

    Section 4.3 leaves open when the callback runs.  The validator of
    [Expression] refuses the call form while it parses, before any
    identifier is reported.  The one below reads the same fragment with
    the call form in it, hands the identifiers to the callback as it
    walks the expression from left to right, and throws when it meets a
    call that [effectful] does not permit: the identifiers met before
    the call have been reported by then. *)
Module Walking.

(** The identifiers handed over so far, and the error if one was
    thrown. *)
Definition Walk : Type := (list string * option string)%type.

Definition done : Walk := ([], None).

(** One walk after another; nothing runs after a throw. *)
Definition and_then (a b : Walk) : Walk :=
  match snd a with
  | Some _ => a
  | None => ((fst a ++ fst b)%list, snd b)
  end.

Fixpoint walk (effectful : bool) (e : Expression.Expr) : Walk :=
  match e with
  | Expression.Num _ | Expression.Str _ _ | Expression.Bool _
  | Expression.Null => done
  | Expression.Ident name => ([name], None)
  | Expression.Unary _ e => walk effectful e
  | Expression.Binary _ l r => and_then (walk effectful l) (walk effectful r)
  | Expression.Conditional test consequent alternate =>
      and_then (walk effectful test)
        (and_then (walk effectful consequent) (walk effectful alternate))
  | Expression.ArrayLit items =>
      fold_right (fun item rest => and_then (walk effectful item) rest) done items
  | Expression.ObjectLit fields =>
      fold_right (fun kv rest => and_then (walk effectful (snd kv)) rest) done fields
  | Expression.Member object _ => walk effectful object
  | Expression.Call callee arguments =>
      if effectful then
        fold_right (fun item rest => and_then (walk effectful item) rest) done
          arguments
      else ([], Some ("Cannot call " ++ callee))
  | Expression.Paren e => walk effectful e
  end.

(** Modelled from the spec: [validateExpression] of
    [@webstudio-is/react-sdk], after [validate(text, options)] of
    section 4.3, with the callback invoked during the walk. *)
Definition validateExpression (code : string) (options : ValidateOptions)
    : Validation :=
  let effectful :=
    match effectful options with Some b => b | None => false end in
  let optional :=
    match optional options with Some b => b | None => false end in
  match Expression.tokens code with
  | None => Rejected [] "Unexpected character"
  | Some [] =>
      if optional then Accepted [] EmptyString
      else Rejected [] "Cannot parse empty expression"
  | Some toks =>
      match Expression.parse true toks with
      | Some e =>
          match walk effectful e with
          | (identifiers, None) => Accepted identifiers (Expression.print e)
          | (identifiers, Some message) => Rejected identifiers message
          end
      | None => Rejected [] "Unexpected token"
      end
  end.

End Walking.

(** ** Vocabulary of the statements *)

(** [message] names [id]: the identifier occurs in the text. *)
Definition names (message id : string) : Prop :=
  exists before after, message = before ++ id ++ after.

(** The texts of a prop that the dependency scan validates, each with
    the options of its call: the text of an expression prop, and the
    code of every step of an action prop with [effectful] set. *)
Definition validated_texts (p : WsProp) : list (string * ValidateOptions) :=
  match prop_value p with
  | ExpressionProp value => [(value, {| effectful := None; optional := None |})]
  | ActionProp steps =>
      List.map
        (fun step => (code step, {| effectful := Some true; optional := None |}))
        steps
  | LiteralProp _ _ => []
  end.

Section Vocabulary.

Variable validateExpression : string -> ValidateOptions -> Validation.
Variable decodeDataSourceVariable : string -> option string.
Variable collectionComponent : string.

(** The spec's union: prop [p] contributes [id] when validating one of
    its texts finds an identifier that decodes to [id]. *)
Definition contributes (p : WsProp) (id : string) : Prop :=
  exists text options identifier,
    In (text, options) (validated_texts p)
    /\ In identifier (identifiers_of (validateExpression text options))
    /\ decodeDataSourceVariable identifier = Some id.

(** Every validation of a text of [p] throws before any identifier has
    been handed to the callback. *)
Definition fails_to_parse (p : WsProp) : Prop :=
  forall text options,
    In (text, options) (validated_texts p) ->
    exists message, validateExpression text options = Rejected [] message.

(** The exception of the scope rule: [d] is a parameter declared at the
    target instance (the first id of the selector), and that instance is
    a collection. *)
Definition hidden_parameter (instanceSelector : list string)
    (instances : JsMap.t Instance) (d : DataSource) : Prop :=
  DataSource.type d = TParameter
  /\ exists target inst,
       hd_error instanceSelector = Some target
       /\ DataSource.scopeInstanceId d = Some target
       /\ JsMap.get target instances = Some inst
       /\ component inst = collectionComponent.

(** The scope rule: the scope of [d] occurs in the selector. *)
Definition in_scope (instanceSelector : list string) (d : DataSource) : Prop :=
  exists scope,
    DataSource.scopeInstanceId d = Some scope /\ In scope instanceSelector.

(** The two tests of the loop of [$selectedInstanceVariables], as
    booleans. *)
Definition skips (instanceSelector : list string)
    (instances : JsMap.t Instance) (d : DataSource) : bool :=
  DataSourceType_eqb (DataSource.type d) TParameter
  && option_string_eqb (hd_error instanceSelector) (DataSource.scopeInstanceId d)
  && match hd_error instanceSelector with
     | Some i =>
         match JsMap.get i instances with
         | Some inst => String.eqb (component inst) collectionComponent
         | None => false
         end
     | None => false
     end.

Definition matches (instanceSelector : list string) (d : DataSource) : bool :=
  match DataSource.scopeInstanceId d with
  | Some scope => includes instanceSelector scope
  | None => false
  end.

End Vocabulary.

(** The key under which [saveVariable] writes: the id of the edited
    data source, or a fresh one. *)
Definition saved_id (nanoid : string) (dataSource : option DataSource) : string :=
  match dataSource with Some d => DataSource.id d | None => nanoid end.

(** World [w] after one more committed snapshot [next]. *)
Definition published (next : Stores) (w : World) : World :=
  {| stores := next;
     selectedInstanceSelector := selectedInstanceSelector w;
     committed := next :: committed w |}.

(** The runtime types that are stored under a tag of their own. *)
Definition tagged_by_typeof (v : JSValue) (stored : VariableValue) : Prop :=
  match v with
  | VString s => typeof v = "string" /\ stored = StringValue s
  | VNumber x => typeof v = "number" /\ stored = NumberValue x
  | VBoolean b => typeof v = "boolean" /\ stored = BooleanValue b
  | _ =>
      typeof v <> "string" /\ typeof v <> "number" /\ typeof v <> "boolean"
      /\ stored = JsonValue v
  end.

(** ** Sample project data *)
Module Sample.

(** The text of the empty string literal, as [JSON.stringify] writes it. *)
Definition quote : string := String "034" EmptyString.
Definition empty_string_literal : string := quote ++ quote.

Definition box : Instance := {| instance_id := "box"; component := "Box" |}.
Definition rows : Instance :=
  {| instance_id := "list"; component := "ws:collection" |}.

Definition count : DataSource :=
  variable "count" (Some "box") "count" (NumberValue (S754_zero false)).
Definition item : DataSource := parameter "item" (Some "list") "item".
Definition feed : DataSource := resource "feed" (Some "box") "feed" "feed-request".
Definition orphan : DataSource := variable "orphan" None "orphan" (StringValue "x").

Definition feed_request : Resource :=
  {| resource_id := "feed-request"; resource_name := "feed" |}.

(** A prop bound to [count] by its encoded identifier. *)
Definition title : WsProp :=
  {| prop_id := "title"; prop_instanceId := Some "box"; prop_name := "title";
     prop_value := ExpressionProp (Expression.encodeDataSourceVariable "count") |}.

(** A prop whose text does not parse. *)
Definition broken : WsProp :=
  {| prop_id := "broken"; prop_instanceId := Some "box"; prop_name := "alt";
     prop_value := ExpressionProp "1 +" |}.

(** A prop whose text mentions [count] and then calls a function. *)
Definition calling : WsProp :=
  {| prop_id := "calling"; prop_instanceId := Some "box"; prop_name := "label";
     prop_value :=
       ExpressionProp (Expression.encodeDataSourceVariable "count" ++ " + f()") |}.

(** An action whose one step calls an effect on [count]. *)
Definition click : WsProp :=
  {| prop_id := "click"; prop_instanceId := Some "box"; prop_name := "onClick";
     prop_value :=
       ActionProp
         [{| args := []; code := "track(" ++ Expression.encodeDataSourceVariable "count" ++ ")" |}] |}.

Definition data (ps : JsMap.t WsProp) : Stores :=
  {| dataSources :=
       [("count", count); ("item", item); ("feed", feed); ("orphan", orphan)];
     resources := [("feed-request", feed_request)];
     props := ps;
     instances := [("box", box); ("list", rows)] |}.

Definition world (selector : option (list string)) (ps : JsMap.t WsProp) : World :=
  {| stores := data ps; selectedInstanceSelector := selector; committed := [] |}.

(** A project with nothing in it yet, the instance [box] selected. *)
Definition blank : World :=
  {| stores := {| dataSources := []; resources := []; props := []; instances := [] |};
     selectedInstanceSelector := Some ["box"];
     committed := [] |}.

(** An editing session on [blank]: create [count] with text [0], bind a
    new prop [title] to it, then clear the binding of [title], for which
    no starting value can be inferred. *)
Definition created : World :=
  snd (saveVariable Expression.validateExpression Expression.jsEval
         "count" None "count" "0" blank).

Definition bound : World :=
  ListItem_onSelect Expression.encodeDataSourceVariable
    "title" None "title" count created.

Definition unbound : World :=
  removeExpression "unused" None (Some "title") "title" bound.

Definition panel (name text : string) : PanelState :=
  {| panel_name := name; panel_value := text;
     nameErrors := None; valueErrors := None; onCancel_calls := 0 |}.

End Sample.
(** ** Vocabulary of the further statements *)

(** The keys of a map, in iteration order. *)
Definition keys_of {V : Type} (m : JsMap.t V) : list string := List.map fst m.

(** A list without the later occurrences of its elements. *)
Fixpoint first_occurrences (xs : list string) : list string :=
  match xs with
  | [] => []
  | x :: rest =>
      x :: filter (fun y => negb (String.eqb y x)) (first_occurrences rest)
  end.

(** Every character of [s] satisfies [p]. *)
Fixpoint all_chars (p : ascii -> bool) (s : string) : bool :=
  match s with
  | EmptyString => true
  | String c rest => p c && all_chars p rest
  end.

(** The panel after one more call of [onCancel]. *)
Definition closed_once (st : PanelState) : PanelState :=
  {| panel_name := panel_name st; panel_value := panel_value st;
     nameErrors := nameErrors st; valueErrors := valueErrors st;
     onCancel_calls := S (onCancel_calls st) |}.

(** The panel showing [errors] under the value editor. *)
Definition with_valueErrors (errors : list string) (st : PanelState) : PanelState :=
  {| panel_name := panel_name st; panel_value := panel_value st;
     nameErrors := nameErrors st; valueErrors := Some errors;
     onCancel_calls := onCancel_calls st |}.

(** The panel showing [errors] under the name field. *)
Definition with_nameErrors (errors : list string) (st : PanelState) : PanelState :=
  {| panel_name := panel_name st; panel_value := panel_value st;
     nameErrors := Some errors; valueErrors := valueErrors st;
     onCancel_calls := onCancel_calls st |}.

Definition is_parameter (variable : option DataSource) : bool :=
  match variable with
  | Some d => DataSourceType_eqb (DataSource.type d) TParameter
  | None => false
  end.

(** The resource that a save of [dataSource] deletes, if any. *)
Definition deleted_resource (dataSource : option DataSource) : option string :=
  match dataSource with
  | Some (resource _ _ _ resourceId) => Some resourceId
  | _ => None
  end.

(** ** More sample data *)
Module Instances.

(** The white space and line terminators of the ASCII range. *)
Definition isWhiteSpace (c : ascii) : bool :=
  existsb (Ascii.eqb c) ["009"; "010"; "011"; "012"; "013"; " "]%char.

Fixpoint dropWhile (p : ascii -> bool) (cs : list ascii) : list ascii :=
  match cs with
  | [] => []
  | c :: rest => if p c then dropWhile p rest else cs
  end.

(** [String.prototype.trim] on a text of ASCII characters. *)
Definition trim (s : string) : string :=
  string_of_list_ascii
    (rev (dropWhile isWhiteSpace
            (rev (dropWhile isWhiteSpace (list_ascii_of_string s))))).

(** The project of [Sample] with [box] selected inside [list], and the
    prop [title] bound to [count]. *)
Definition titled : World :=
  Sample.world (Some ["box"; "list"]) [("title", Sample.title)].

(** A literal value for a prop. *)
Definition plain : PropValue := LiteralProp "string" (VString "x").

End Instances.

(** ** Facts about the containers *)

Module JsMapFacts.
Import JsMap.

Section Facts.
Context {V : Type}.
Implicit Types (m : t V) (k : string) (v : V).

Lemma get_set_same m k v : get k (set k v m) = Some v.
Proof.
  induction m as [|[k' v'] rest IH]; simpl.
  - now rewrite String.eqb_refl.
  - destruct (String.eqb k k') eqn:E; simpl; rewrite ?String.eqb_refl, ?E; auto.
Qed.

Lemma get_set_other m k k' v : k' <> k -> get k' (set k v m) = get k' m.
Proof.
  intros Hne. induction m as [|[k0 v0] rest IH]; simpl.
  - destruct (String.eqb_spec k' k); [contradiction | reflexivity].
  - destruct (String.eqb_spec k k0) as [->|Hk]; simpl.
    + destruct (String.eqb_spec k' k0); [contradiction | reflexivity].
    + destruct (String.eqb k' k0); auto.
Qed.

Lemma get_delete_same m k : get k (delete k m) = None.
Proof.
  induction m as [|[k' v'] rest IH]; simpl; auto.
  destruct (String.eqb k k') eqn:E; simpl; rewrite ?E; auto.
Qed.

Lemma get_delete_other m k k' : k' <> k -> get k' (delete k m) = get k' m.
Proof.
  intros Hne. induction m as [|[k0 v0] rest IH]; simpl; auto.
  destruct (String.eqb_spec k k0) as [->|Hk]; simpl.
  - rewrite IH. destruct (String.eqb_spec k' k0); [contradiction | reflexivity].
  - destruct (String.eqb k' k0); auto.
Qed.

Lemma delete_absent m k : get k m = None -> delete k m = m.
Proof.
  induction m as [|[k' v'] rest IH]; simpl; auto.
  destruct (String.eqb k k'); [discriminate|].
  intros H. now rewrite IH.
Qed.

Lemma get_in_values m k v : get k m = Some v -> In v (values m).
Proof.
  induction m as [|[k' v'] rest IH]; simpl; [discriminate|].
  destruct (String.eqb k k').
  - intros [= ->]. now left.
  - intros H. right. now apply IH.
Qed.
End Facts.

End JsMapFacts.

Module JsSetFacts.
Import JsSet.

Lemma has_In x s : has x s = true <-> In x s.
Proof.
  unfold has. rewrite existsb_exists. split.
  - intros [y [Hy E]]. apply String.eqb_eq in E. now subst.
  - intros H. exists x. split; [assumption | apply String.eqb_refl].
Qed.

Lemma In_add x y s : In x (add y s) <-> x = y \/ In x s.
Proof.
  unfold add. destruct (has y s) eqn:E.
  - apply has_In in E. split; [now right | intros [->|H]; assumption].
  - rewrite in_app_iff. simpl. intuition.
Qed.

Lemma In_add_all x xs s : In x (add_all xs s) <-> In x xs \/ In x s.
Proof.
  unfold add_all. revert s. induction xs as [|y ys IH]; simpl; intros s.
  - intuition.
  - rewrite IH, In_add. intuition.
Qed.

End JsSetFacts.

(** ** The scope resolver *)
Section ScopeResolver.

Variable collectionComponent : string.

Lemma includes_In xs x : includes xs x = true <-> In x xs.
Proof.
  unfold includes. rewrite existsb_exists. split.
  - intros [y [Hy E]]. apply String.eqb_eq in E. now subst.
  - intros H. exists x. split; [assumption | apply String.eqb_refl].
Qed.

Lemma DataSourceType_eqb_eq a b : DataSourceType_eqb a b = true <-> a = b.
Proof. destruct a, b; simpl; split; congruence. Qed.

Lemma matches_in_scope sel d : matches sel d = true <-> in_scope sel d.
Proof.
  unfold matches, in_scope. destruct (DataSource.scopeInstanceId d) as [scope|].
  - rewrite includes_In. split.
    + intros H. now exists scope.
    + intros [scope' [[= <-] H]]. exact H.
  - split; [discriminate | intros [scope [E _]]; discriminate].
Qed.

Lemma skips_hidden_parameter sel insts d :
  skips collectionComponent sel insts d = true <-> hidden_parameter collectionComponent sel insts d.
Proof.
  unfold skips, hidden_parameter.
  rewrite !andb_true_iff, DataSourceType_eqb_eq.
  split.
  - intros [[Hty Hscope] Hcomp]. split; [exact Hty|].
    destruct (hd_error sel) as [target|]; [|discriminate].
    destruct (JsMap.get target insts) as [inst|] eqn:Hget; [|discriminate].
    exists target, inst. repeat split; auto.
    + destruct (DataSource.scopeInstanceId d) as [scope|]; simpl in Hscope;
        [|discriminate].
      apply String.eqb_eq in Hscope. now subst.
    + now apply String.eqb_eq.
  - intros [Hty [target [inst [Hhd [Hscope [Hget Hcomp]]]]]].
    rewrite Hhd, Hscope, Hget. simpl. rewrite String.eqb_refl.
    repeat split; auto. now apply String.eqb_eq.
Qed.

(** The loop pushes, in the order of the map, the data sources that pass
    both tests. *)
Lemma selectedInstanceVariables_loop sel insts (ds : list DataSource) acc :
  fold_left
    (fun matchedVariables dataSource =>
       if skips collectionComponent sel insts dataSource then matchedVariables
       else
         match DataSource.scopeInstanceId dataSource with
         | Some scope =>
             if includes sel scope
             then (matchedVariables ++ [dataSource])%list
             else matchedVariables
         | None => matchedVariables
         end)
    ds acc
  = (acc ++ filter (fun d => negb (skips collectionComponent sel insts d) && matches sel d) ds)%list.
Proof.
  revert acc. induction ds as [|d ds IH]; intros acc; simpl.
  - now rewrite app_nil_r.
  - rewrite IH. unfold matches at 2.
    destruct (skips collectionComponent sel insts d); simpl; [reflexivity|].
    destruct (DataSource.scopeInstanceId d) as [scope|]; [|reflexivity].
    destruct (includes sel scope); [|reflexivity].
    now rewrite <- app_assoc.
Qed.

Lemma selectedInstanceVariables_filter sel dataSources insts :
  selectedInstanceVariables collectionComponent (Some sel) dataSources insts
  = filter (fun d => negb (skips collectionComponent sel insts d) && matches sel d)
      (JsMap.values dataSources).
Proof.
  unfold selectedInstanceVariables.
  exact (selectedInstanceVariables_loop sel insts (JsMap.values dataSources) []).
Qed.

(** C2. For every selector (target first), every variable collection and
    every instance collection, a variable of the collection is in the
    visible set exactly when its [scopeInstanceId] occurs somewhere in
    the selector, unless it is a parameter declared at the target
    instance and the component of that instance is the collection
    component. *)
Theorem selectedInstanceVariables_exactly :
  forall (instanceSelector : list string) (dataSources : JsMap.t DataSource)
         (instances : JsMap.t Instance) (d : DataSource),
    In d (selectedInstanceVariables collectionComponent (Some instanceSelector) dataSources instances)
    <-> In d (JsMap.values dataSources)
        /\ in_scope instanceSelector d
        /\ ~ hidden_parameter collectionComponent instanceSelector instances d.
Proof.
  intros sel dataSources insts d.
  rewrite selectedInstanceVariables_filter, filter_In, andb_true_iff,
    negb_true_iff, matches_in_scope.
  rewrite <- skips_hidden_parameter.
  destruct (skips collectionComponent sel insts d); intuition congruence.
Qed.

(** C9. Whatever the selector is, also when nothing is selected, a
    variable whose [scopeInstanceId] is undefined is not in the visible
    set. *)
Theorem selectedInstanceVariables_needs_scope :
  forall (instanceSelector : option (list string))
         (dataSources : JsMap.t DataSource) (instances : JsMap.t Instance)
         (d : DataSource),
    DataSource.scopeInstanceId d = None ->
    ~ In d (selectedInstanceVariables collectionComponent instanceSelector dataSources instances).
Proof.
  intros [sel|] dataSources insts d Hscope Hin; [|exact Hin].
  rewrite selectedInstanceVariables_filter, filter_In, andb_true_iff in Hin.
  destruct Hin as [_ [_ Hmatch]]. unfold matches in Hmatch.
  rewrite Hscope in Hmatch. discriminate.
Qed.

End ScopeResolver.

(** ** The dependency tracker *)
Section DependencyTracker.

Variable validateExpression : string -> ValidateOptions -> Validation.
Variable decodeDataSourceVariable : string -> option string.

Lemma collect_In used run id :
  In id (collect decodeDataSourceVariable used run)
  <-> In id used
      \/ exists identifier,
           In identifier (identifiers_of run)
           /\ decodeDataSourceVariable identifier = Some id.
Proof.
  unfold collect. generalize (identifiers_of run) as identifiers.
  intros identifiers. revert used.
  induction identifiers as [|x xs IH]; intros used; simpl.
  - split; [now left | intros [H|[y [[] _]]]; exact H].
  - rewrite IH. destruct (decodeDataSourceVariable x) as [id'|] eqn:E.
    + rewrite JsSetFacts.In_add. split.
      * intros [[->|H]|[y [Hy Ey]]]; eauto 6.
      * intros [H|[y [[->|Hy] Ey]]]; eauto 6.
        left. left. congruence.
    + split.
      * intros [H|[y [Hy Ey]]]; eauto 6.
      * intros [H|[y [[->|Hy] Ey]]]; eauto 6. congruence.
Qed.

Lemma collect_steps_In options steps used id :
  In id
    (fold_left
       (fun usedVariables step =>
          collect decodeDataSourceVariable usedVariables
            (validateExpression (code step) options))
       steps used)
  <-> In id used
      \/ exists step identifier,
           In step steps
           /\ In identifier (identifiers_of (validateExpression (code step) options))
           /\ decodeDataSourceVariable identifier = Some id.
Proof.
  revert used. induction steps as [|s steps IH]; intros used; simpl.
  - split; [now left | intros [H|[s [y [[] _]]]]; exact H].
  - rewrite IH, collect_In. split.
    + intros [[H|[y [Hy Ey]]]|[s' [y [Hs [Hy Ey]]]]]; eauto 8.
    + intros [H|[s' [y [[->|Hs] [Hy Ey]]]]]; eauto 8.
Qed.

Lemma usedVariables_prop_In used p id :
  In id (usedVariables_prop validateExpression decodeDataSourceVariable used p)
  <-> In id used \/ contributes validateExpression decodeDataSourceVariable p id.
Proof.
  unfold usedVariables_prop, contributes, validated_texts.
  destruct (prop_value p) as [value|steps|ty v].
  - rewrite collect_In. split.
    + intros [H|[y [Hy Ey]]]; [now left|]. right.
      exists value, {| effectful := None; optional := None |}, y.
      repeat split; auto. now left.
    + intros [H|[text [options [y [[[= <- <-]|[]] [Hy Ey]]]]]]; eauto.
  - rewrite collect_steps_In. split.
    + intros [H|[s [y [Hs [Hy Ey]]]]]; [now left|]. right.
      exists (code s), {| effectful := Some true; optional := None |}, y.
      repeat split; auto.
      apply in_map_iff. now exists s.
    + intros [H|[text [options [y [Hin [Hy Ey]]]]]]; [now left|]. right.
      apply in_map_iff in Hin. destruct Hin as [s [[= <- <-] Hs]].
      now exists s, y.
  - split; [now left | intros [H|[text [options [y [[] _]]]]]; exact H].
Qed.

Lemma usedVariables_loop_In ps used id :
  In id (fold_left (usedVariables_prop validateExpression decodeDataSourceVariable) ps used)
  <-> In id used
      \/ exists p, In p ps
                   /\ contributes validateExpression decodeDataSourceVariable p id.
Proof.
  revert used. induction ps as [|p ps IH]; intros used; simpl.
  - split; [now left | intros [H|[p [[] _]]]; exact H].
  - rewrite IH, usedVariables_prop_In. split.
    + intros [[H|H]|[q [Hq H]]]; eauto 6.
    + intros [H|[q [[->|Hq] H]]]; eauto 6.
Qed.

(** A prop whose validations all throw at once leaves the set as it
    found it. *)
Lemma usedVariables_prop_fails used p :
  fails_to_parse validateExpression p ->
  usedVariables_prop validateExpression decodeDataSourceVariable used p = used.
Proof.
  unfold fails_to_parse, usedVariables_prop, validated_texts.
  destruct (prop_value p) as [value|steps|ty v]; intros Hfail; auto.
  - destruct (Hfail value {| effectful := None; optional := None |}) as [m ->];
      [now left | reflexivity].
  - revert used. induction steps as [|s steps IH]; intros used; simpl; auto.
    destruct (Hfail (code s) {| effectful := Some true; optional := None |})
      as [m ->]; [now left|].
    simpl. apply IH. intros text options Hin. apply Hfail. now right.
Qed.

(** C5, as amended.  The used-variables set is the union, over the props
    of the snapshot, of the ids decoded from the identifiers that
    validation hands to the callback for the text of an expression prop
    and for every step of an action prop (validated with [effectful]
    set), those handed over before a validation throws included.  A prop
    whose validations throw before any identifier is handed over,
    wherever it stands in the collection, contributes nothing and the
    scan goes on with the props after it: the result is the one of the
    collection without that prop. *)
Theorem usedVariables_union :
  (forall (props : JsMap.t WsProp) (id : string),
      In id (usedVariables validateExpression decodeDataSourceVariable props)
      <-> exists p, In p (JsMap.values props)
                    /\ contributes validateExpression decodeDataSourceVariable p id)
  /\ (forall (before after : JsMap.t WsProp) (key : string) (p : WsProp),
        fails_to_parse validateExpression p ->
        usedVariables validateExpression decodeDataSourceVariable
          (before ++ (key, p) :: after)%list
        = usedVariables validateExpression decodeDataSourceVariable
            (before ++ after)%list).
Proof.
  split.
  - intros props id. unfold usedVariables. rewrite usedVariables_loop_In.
    split; [intros [[]|H]; exact H | now right].
  - intros before after key p Hfail. unfold usedVariables, JsMap.values.
    rewrite !map_app, !fold_left_app. simpl.
    now rewrite usedVariables_prop_fails.
Qed.

End DependencyTracker.

(** ** Strings *)

Lemma append_assoc (a b c : string) : (a ++ b) ++ c = a ++ b ++ c.
Proof. induction a as [|x a IH]; simpl; [reflexivity | now rewrite IH]. Qed.

Lemma append_empty_r (a : string) : a ++ EmptyString = a.
Proof. induction a as [|x a IH]; simpl; [reflexivity | now rewrite IH]. Qed.

Lemma names_self (id : string) : names id id.
Proof. exists EmptyString, EmptyString. simpl. now rewrite append_empty_r. Qed.

Lemma names_inside (before after message id : string) :
  names message id -> names (before ++ message ++ after) id.
Proof.
  intros [b [a ->]]. exists (before ++ b), (a ++ after).
  now rewrite !append_assoc.
Qed.

Lemma names_concat (sep : string) (ids : list string) (id : string) :
  In id ids -> names (String.concat sep ids) id.
Proof.
  induction ids as [|x xs IH]; [intros []|].
  intros [->|Hin].
  - destruct xs as [|y ys]; simpl; [apply names_self|].
    exists EmptyString, (sep ++ String.concat sep (y :: ys)). reflexivity.
  - destruct xs as [|y ys]; [destruct Hin|].
    change (String.concat sep (x :: y :: ys))
      with (x ++ sep ++ String.concat sep (y :: ys)).
    destruct (IH Hin) as [b [a ->]].
    exists (x ++ sep ++ b), a. now rewrite !append_assoc.
Qed.

(** ** Transactions *)

(** A transaction changes nothing when its recipe throws, and otherwise
    publishes one snapshot made of the finished draft. *)
Lemma createTransaction_all_or_nothing (containers : list Container)
    (recipe : Tx unit) (w : World) :
  ((exists message, recipe (stores w) = TxThrow message)
   /\ createTransaction containers recipe w = w)
  \/ (exists draft,
        recipe (stores w) = TxDone tt draft
        /\ createTransaction containers recipe w
           = published (commit containers (stores w) draft) w).
Proof.
  unfold createTransaction.
  destruct (recipe (stores w)) as [[] draft|message].
  - right. now exists draft.
  - left. split; [now exists message | reflexivity].
Qed.

(** A recipe that deletes a resource and then throws leaves the resource
    where it was. *)
Lemma createTransaction_discards_on_throw (containers : list Container)
    (resourceId message : string) (w : World) :
  createTransaction containers
    (Draft.resources_delete resourceId ;; (fun _ => TxThrow message))%tx w
  = w.
Proof. reflexivity. Qed.

(** ** Parsing and saving a value variable *)
Section SaveVariable.

Variable validateExpression : string -> ValidateOptions -> Validation.
Variable jsEval : string -> JSValue + string.

(** The text of an accepted expression without identifiers is evaluated
    between parentheses, and never as it stands. *)
Lemma parseVariableValue_evaluates code normalized :
  validateExpression code {| effectful := None; optional := Some true |}
  = Accepted [] normalized ->
  parseVariableValue validateExpression jsEval code
  = match jsEval ("(" ++ normalized ++ ")") with
    | inl v => {| value := Some v; error := None |}
    | inr message => {| value := None; error := Some ("Parse Error: " ++ message) |}
    end.
Proof. intros H. unfold parseVariableValue. now rewrite H. Qed.

Lemma add_all_nonempty (identifiers : list string) :
  identifiers <> [] -> JsSet.size (JsSet.add_all identifiers JsSet.empty) <> 0.
Proof.
  destruct identifiers as [|x xs]; [congruence|]. intros _ Hsize.
  assert (Hin : In x (JsSet.add_all (x :: xs) JsSet.empty))
    by (apply JsSetFacts.In_add_all; left; now left).
  unfold JsSet.size in Hsize.
  destruct (JsSet.add_all (x :: xs) JsSet.empty); [destruct Hin | discriminate].
Qed.

Lemma parseVariableValue_identifiers code identifiers normalized :
  validateExpression code {| effectful := None; optional := Some true |}
  = Accepted identifiers normalized ->
  identifiers <> [] ->
  parseVariableValue validateExpression jsEval code
  = {| value := None;
       error := Some ("Cannot use variables "
                      ++ String.concat ", " (JsSet.add_all identifiers JsSet.empty)
                      ++ " as variable value") |}.
Proof.
  intros H Hne. unfold parseVariableValue. rewrite H.
  apply add_all_nonempty, Nat.eqb_neq in Hne. now rewrite Hne.
Qed.

(** Whenever no error is returned, a value has been produced. *)
Lemma parseVariableValue_value code :
  error (parseVariableValue validateExpression jsEval code) = None ->
  exists v, parseVariableValue validateExpression jsEval code
            = {| value := Some v; error := None |}.
Proof.
  unfold parseVariableValue.
  destruct (validateExpression code _) as [ids normalized|ids message];
    [|discriminate].
  destruct (Nat.eqb _ 0); [|discriminate].
  destruct (jsEval _) as [v|message]; [|discriminate].
  intros _. now exists v.
Qed.

(** The three ways [saveVariable] ends. *)
Lemma saveVariable_error nanoid dataSource name text w e :
  error (parseVariableValue validateExpression jsEval text) = Some e ->
  saveVariable validateExpression jsEval nanoid dataSource name text w
  = (Some {| save_error := Some e |}, w).
Proof. intros H. unfold saveVariable. now rewrite H. Qed.

Lemma saveVariable_unselected nanoid dataSource name text w :
  error (parseVariableValue validateExpression jsEval text) = None ->
  selectedInstanceSelector w = None ->
  saveVariable validateExpression jsEval nanoid dataSource name text w = (None, w).
Proof. intros H Hsel. unfold saveVariable. now rewrite H, Hsel. Qed.

Lemma saveVariable_commits nanoid dataSource name text w v instanceSelector :
  parseVariableValue validateExpression jsEval text
  = {| value := Some v; error := None |} ->
  selectedInstanceSelector w = Some instanceSelector ->
  saveVariable validateExpression jsEval nanoid dataSource name text w
  = (None,
     published
       {| dataSources :=
            JsMap.set (saved_id nanoid dataSource)
              (variable (saved_id nanoid dataSource)
                 match JsMap.get (saved_id nanoid dataSource)
                         (dataSources (stores w)) with
                 | Some d =>
                     match DataSource.scopeInstanceId d with
                     | Some scope => Some scope
                     | None => hd_error instanceSelector
                     end
                 | None => hd_error instanceSelector
                 end
                 name (variableValue_of v))
              (dataSources (stores w));
          resources :=
            match dataSource with
            | Some (resource _ _ _ resourceId) =>
                JsMap.delete resourceId (resources (stores w))
            | _ => resources (stores w)
            end;
          props := props (stores w);
          instances := instances (stores w) |}
       w).
Proof.
  intros H Hsel. unfold saveVariable. rewrite H, Hsel. simpl.
  unfold createTransaction, saveVariable_recipe, tx_bind, published, saved_id.
  destruct dataSource as [[id s n val|id s n|id s n r]|]; reflexivity.
Qed.

Lemma variableValue_of_tagged (v : JSValue) : tagged_by_typeof v (variableValue_of v).
Proof. destruct v; cbn; repeat split; discriminate. Qed.

(** C4, as amended.  When validating the text of a value variable
    collects at least one identifier, no value is produced and an error
    is returned, and a save with that text returns this error and leaves
    every store as it was.  When the validation has returned, the error
    lists the collected identifiers, each of them and nothing else,
    between the words of its message; when the validation has thrown,
    the error is the message that it threw. *)
Theorem value_with_identifiers_is_refused :
  forall (code : string),
    identifiers_of
      (validateExpression code {| effectful := None; optional := Some true |})
    <> [] ->
    exists message,
      parseVariableValue validateExpression jsEval code
      = {| value := None; error := Some message |}
      /\ (forall nanoid dataSource name w,
             saveVariable validateExpression jsEval nanoid dataSource name code w
             = (Some {| save_error := Some message |}, w))
      /\ (forall identifiers normalized,
             validateExpression code {| effectful := None; optional := Some true |}
             = Accepted identifiers normalized ->
             exists listed,
               message = "Cannot use variables " ++ String.concat ", " listed
                         ++ " as variable value"
               /\ (forall id, In id listed <-> In id identifiers)
               /\ (forall id, In id identifiers -> names message id))
      /\ (forall identifiers thrown,
             validateExpression code {| effectful := None; optional := Some true |}
             = Rejected identifiers thrown ->
             message = thrown).
Proof.
  intros code Hne.
  destruct (validateExpression code {| effectful := None; optional := Some true |})
    as [identifiers normalized|identifiers thrown] eqn:H; simpl in Hne.
  - pose proof (parseVariableValue_identifiers _ _ _ H Hne) as Hparse.
    eexists. split; [exact Hparse|]. split; [|split].
    + intros nanoid dataSource name w. apply saveVariable_error.
      now rewrite Hparse.
    + intros identifiers' normalized' [= <- <-].
      exists (JsSet.add_all identifiers JsSet.empty).
      split; [reflexivity|]. split.
      * intros id. rewrite JsSetFacts.In_add_all. simpl. tauto.
      * intros id Hin.
        apply names_inside, names_concat, JsSetFacts.In_add_all. now left.
    + discriminate.
  - assert (Hparse : parseVariableValue validateExpression jsEval code
                     = {| value := None; error := Some thrown |})
      by (unfold parseVariableValue; now rewrite H).
    exists thrown. split; [exact Hparse|]. split; [|split].
    + intros nanoid dataSource name w. apply saveVariable_error.
      now rewrite Hparse.
    + discriminate.
    + now intros identifiers' thrown' [= _ <-].
Qed.

(** C7. When a save goes through (the text evaluates to [v] and an
    instance is selected), the entry written under the variable's id is a
    value variable whose stored value carries the tag of the runtime type
    of [v]: string, number, boolean, and json for everything else. *)
Theorem saveVariable_tags_value :
  forall (nanoid : string) (dataSource : option DataSource) (name text : string)
         (v : JSValue) (instanceSelector : list string) (w : World),
    parseVariableValue validateExpression jsEval text
    = {| value := Some v; error := None |} ->
    selectedInstanceSelector w = Some instanceSelector ->
    fst (saveVariable validateExpression jsEval nanoid dataSource name text w) = None
    /\ exists scope stored,
         JsMap.get (saved_id nanoid dataSource)
           (dataSources (stores (snd (saveVariable validateExpression jsEval
                                        nanoid dataSource name text w))))
         = Some (variable (saved_id nanoid dataSource) scope name stored)
         /\ tagged_by_typeof v stored.
Proof.
  intros nanoid dataSource name text v sel w Hparse Hsel.
  rewrite (saveVariable_commits _ _ _ _ _ _ _ Hparse Hsel). simpl.
  split; [reflexivity|].
  eexists _, (variableValue_of v). split.
  - apply JsMapFacts.get_set_same.
  - apply variableValue_of_tagged.
Qed.

(** C10, as amended.  With no instance selected, [saveVariable] changes
    nothing; it returns [undefined] when the text parses, which is also
    what a committed save of that text returns in any world, and it
    returns the parse error when the text does not parse. *)
Theorem saveVariable_without_selection :
  forall (nanoid : string) (dataSource : option DataSource) (name text : string)
         (w : World),
    selectedInstanceSelector w = None ->
    snd (saveVariable validateExpression jsEval nanoid dataSource name text w) = w
    /\ (error (parseVariableValue validateExpression jsEval text) = None ->
        forall w',
          fst (saveVariable validateExpression jsEval nanoid dataSource name text w)
          = None
          /\ fst (saveVariable validateExpression jsEval nanoid dataSource name text w')
             = None)
    /\ (forall e,
          error (parseVariableValue validateExpression jsEval text) = Some e ->
          fst (saveVariable validateExpression jsEval nanoid dataSource name text w)
          = Some {| save_error := Some e |}).
Proof.
  intros nanoid dataSource name text w Hsel. repeat split.
  - destruct (error (parseVariableValue validateExpression jsEval text)) as [e|] eqn:E.
    + now rewrite (saveVariable_error _ _ _ _ _ _ E).
    + now rewrite (saveVariable_unselected _ _ _ _ _ E Hsel).
  - now rewrite (saveVariable_unselected _ _ _ _ _ H Hsel).
  - unfold saveVariable. rewrite H.
    destruct (selectedInstanceSelector w'); reflexivity.
  - intros e E. now rewrite (saveVariable_error _ _ _ _ _ _ E).
Qed.

(** C3. Saving a value over a resource variable either is refused and
    leaves the world as it was, with no snapshot published, or publishes
    exactly one snapshot, in which the resource entry is gone and the
    entry of the variable is the new value variable; the other
    collections are the same in both cases. *)
Theorem convert_resource_is_atomic :
  forall (nanoid id : string) (scope : option string) (oldName resourceId : string)
         (name text : string) (w : World),
    ((error (parseVariableValue validateExpression jsEval text) <> None
      \/ selectedInstanceSelector w = None)
     /\ snd (saveVariable validateExpression jsEval nanoid
               (Some (resource id scope oldName resourceId)) name text w) = w)
    \/ ((error (parseVariableValue validateExpression jsEval text) = None
         /\ selectedInstanceSelector w <> None)
        /\ exists next newScope stored,
             snd (saveVariable validateExpression jsEval nanoid
                    (Some (resource id scope oldName resourceId)) name text w)
             = published next w
             /\ JsMap.get resourceId (resources next) = None
             /\ JsMap.get id (dataSources next)
                = Some (variable id newScope name stored)
             /\ props next = props (stores w)
             /\ instances next = instances (stores w)).
Proof.
  intros nanoid id scope oldName resourceId name text w.
  destruct (error (parseVariableValue validateExpression jsEval text)) as [e|] eqn:E.
  - left. split; [left; discriminate|].
    now rewrite (saveVariable_error _ _ _ _ _ _ E).
  - destruct (selectedInstanceSelector w) as [sel|] eqn:Hsel.
    + right. split; [split; [reflexivity | discriminate]|].
      destruct (parseVariableValue_value _ E) as [v Hparse].
      rewrite (saveVariable_commits _ _ _ _ _ _ _ Hparse Hsel). simpl.
      eexists _, _, _. split; [reflexivity|]. simpl. repeat split.
      * apply JsMapFacts.get_delete_same.
      * apply JsMapFacts.get_set_same.
    + left. split; [now right|].
      now rewrite (saveVariable_unselected _ _ _ _ _ E Hsel).
Qed.

End SaveVariable.

(** ** Renaming and deleting *)
Section EditVariable.

Variable validateExpression : string -> ValidateOptions -> Validation.
Variable decodeDataSourceVariable : string -> option string.
Variable jsEval : string -> JSValue + string.

(** What [renameVariable] does on its own: one snapshot, in which the
    entry of the variable has the new name and is otherwise the same. *)
Lemma renameVariable_only_name (d : DataSource) (name : string) (w : World) :
  exists next,
    renameVariable d name w = published next w
    /\ JsMap.get (DataSource.id d) (dataSources next)
       = Some (DataSource.with_name d name)
    /\ DataSource.type (DataSource.with_name d name) = DataSource.type d
    /\ resources next = resources (stores w)
    /\ props next = props (stores w)
    /\ instances next = instances (stores w).
Proof.
  eexists. split; [reflexivity|]. simpl. repeat split.
  - apply JsMapFacts.get_set_same.
  - now destruct d.
Qed.

Lemma used_has_contributes (ps : JsMap.t WsProp) (id : string) :
  JsSet.has id (usedVariables validateExpression decodeDataSourceVariable ps) = true
  <-> exists p, In p (JsMap.values ps)
                /\ contributes validateExpression decodeDataSourceVariable p id.
Proof.
  rewrite JsSetFacts.has_In. unfold usedVariables.
  rewrite usedVariables_loop_In. split; [intros [[]|H]; exact H | now right].
Qed.

Lemma deleteVariable_removes (d : DataSource) (w : World) :
  exists next,
    deleteVariable d w = published next w
    /\ JsMap.get (DataSource.id d) (dataSources next) = None
    /\ (forall id, id <> DataSource.id d ->
                   JsMap.get id (dataSources next)
                   = JsMap.get id (dataSources (stores w)))
    /\ resources next = resources (stores w)
    /\ props next = props (stores w)
    /\ instances next = instances (stores w).
Proof.
  eexists. split; [reflexivity|]. simpl. repeat split.
  - apply JsMapFacts.get_delete_same.
  - intros id Hne. now apply JsMapFacts.get_delete_other.
Qed.

(** C1, as amended.  While some prop of the collection contributes the
    id of a variable to the referenced set, a click on its delete button
    changes nothing.  A variable that is not of kind value is never
    deleted by the button.  A value variable that no prop references any
    more is deleted: one snapshot, in which its id is absent from the
    variables collection and everything else is as before. *)
Theorem delete_is_gated :
  forall (d : DataSource) (w : World),
    ((exists p, In p (JsMap.values (props (stores w)))
                /\ contributes validateExpression decodeDataSourceVariable p
                     (DataSource.id d)) ->
     ListItem_onDelete validateExpression decodeDataSourceVariable d w = w)
    /\ (DataSource.type d <> TVariable ->
        ListItem_onDelete validateExpression decodeDataSourceVariable d w = w)
    /\ (DataSource.type d = TVariable ->
        (forall p, In p (JsMap.values (props (stores w))) ->
                   ~ contributes validateExpression decodeDataSourceVariable p
                       (DataSource.id d)) ->
        exists next,
          ListItem_onDelete validateExpression decodeDataSourceVariable d w
          = published next w
          /\ JsMap.get (DataSource.id d) (dataSources next) = None
          /\ (forall id, id <> DataSource.id d ->
                         JsMap.get id (dataSources next)
                         = JsMap.get id (dataSources (stores w)))
          /\ resources next = resources (stores w)
          /\ props next = props (stores w)
          /\ instances next = instances (stores w)).
Proof.
  intros d w. unfold ListItem_onDelete, deletable. repeat split.
  - intros Hused. apply used_has_contributes in Hused. rewrite Hused.
    now rewrite andb_false_r.
  - intros Hty. destruct (DataSource.type d); [congruence | reflexivity..].
  - intros Hty Hfree. rewrite Hty. simpl.
    destruct (JsSet.has _ _) eqn:Hhas.
    + apply used_has_contributes in Hhas. destruct Hhas as [p [Hin Hc]].
      now destruct (Hfree p Hin).
    + simpl. apply deleteVariable_removes.
Qed.

(** The Save button on a parameter: after the rename, the handler goes
    on to [saveVariable], and when the text of the value editor evaluates
    the entry of the parameter is overwritten by a value variable. *)
Lemma parameter_save_falls_through (nanoid id : string) (scope : option string)
    (oldName : string) (st : PanelState) (w : World) (v : JSValue)
    (instanceSelector : list string) :
  panel_name st <> EmptyString ->
  parseVariableValue validateExpression jsEval (panel_value st)
  = {| value := Some v; error := None |} ->
  selectedInstanceSelector w = Some instanceSelector ->
  exists newScope,
    JsMap.get id
      (dataSources
         (stores (snd (VariableValuePanel_onSave validateExpression jsEval nanoid
                         (Some (parameter id scope oldName)) st w))))
    = Some (variable id newScope (panel_name st) (variableValue_of v)).
Proof.
  intros Hname Hparse Hsel. unfold VariableValuePanel_onSave.
  destruct (panel_name st) as [|c rest] eqn:Ename; [congruence|]. simpl Nat.eqb.
  cbv iota. cbn [panel_value].
  assert (Hsel' : selectedInstanceSelector
                    (renameVariable (parameter id scope oldName) (String c rest) w)
                  = Some instanceSelector) by exact Hsel.
  rewrite (saveVariable_commits validateExpression jsEval nanoid
             (Some (parameter id scope oldName)) (String c rest) (panel_value st)
             _ v instanceSelector Hparse Hsel').
  eexists. simpl. apply JsMapFacts.get_set_same.
Qed.

End EditVariable.

(** ** The results on the expression language of this file *)

(** The validator of this file parses before it reports: a text that it
    rejects has handed no identifier to the callback, so every prop
    whose texts it rejects fails to parse in the sense of
    [fails_to_parse]. *)
Lemma validateExpression_rejects_early (code : string) (options : ValidateOptions)
    (identifiers : list string) (message : string) :
  Expression.validateExpression code options = Rejected identifiers message ->
  identifiers = [].
Proof.
  unfold Expression.validateExpression.
  destruct (Expression.tokens code) as [[|t toks]|].
  - destruct (match optional options with Some b => b | None => false end);
      [discriminate | now intros [= <- _]].
  - destruct (Expression.parse _ _); [discriminate | now intros [= <- _]].
  - now intros [= <- _].
Qed.

Lemma rejected_prop_fails_to_parse (p : WsProp) :
  (forall text options,
      In (text, options) (validated_texts p) ->
      exists identifiers message,
        Expression.validateExpression text options = Rejected identifiers message) ->
  fails_to_parse Expression.validateExpression p.
Proof.
  intros H text options Hin. destruct (H text options Hin) as [ids [m E]].
  exists m. rewrite E. f_equal. exact (validateExpression_rejects_early _ _ _ _ E).
Qed.

Lemma broken_fails_to_parse :
  fails_to_parse Expression.validateExpression Sample.broken.
Proof.
  intros text options [[= <- <-]|[]]. eexists. reflexivity.
Defined.

(** Instance of C9: [orphan] has no scope and is not shown at [box]
    inside [list]. *)
Lemma orphan_is_never_visible :
  DataSource.scopeInstanceId Sample.orphan = None
  /\ ~ In Sample.orphan
         (selectedInstanceVariables "ws:collection" (Some ["box"; "list"])
            (dataSources (Sample.data [])) (instances (Sample.data []))).
Proof.
  split; [reflexivity|].
  apply (selectedInstanceVariables_needs_scope "ws:collection").
  reflexivity.
Defined.

(** Instance of C5: [count] is referenced by [title] and by the step of
    [click]; [broken], between them, adds nothing and stops nothing. *)
Lemma broken_prop_is_skipped :
  (In "count"
     (usedVariables Expression.validateExpression Expression.decodeDataSourceVariable
        [("title", Sample.title); ("broken", Sample.broken); ("click", Sample.click)])
   <-> exists p,
         In p (JsMap.values
                 [("title", Sample.title); ("broken", Sample.broken);
                  ("click", Sample.click)])
         /\ contributes Expression.validateExpression
              Expression.decodeDataSourceVariable p "count")
  /\ usedVariables Expression.validateExpression Expression.decodeDataSourceVariable
       ([("title", Sample.title)] ++ ("broken", Sample.broken)
          :: [("click", Sample.click)])%list
     = usedVariables Expression.validateExpression Expression.decodeDataSourceVariable
         ([("title", Sample.title)] ++ [("click", Sample.click)])%list.
Proof.
  split.
  - apply (proj1 (usedVariables_union Expression.validateExpression
                    Expression.decodeDataSourceVariable)).
  - apply (proj2 (usedVariables_union Expression.validateExpression
                    Expression.decodeDataSourceVariable)).
    exact broken_fails_to_parse.
Defined.

(** The referenced set of these three props, in full. *)
Example used_variables_of_sample :
  usedVariables Expression.validateExpression Expression.decodeDataSourceVariable
    [("title", Sample.title); ("broken", Sample.broken); ("click", Sample.click)]
  = ["count"].
Proof. reflexivity. Qed.

(** Instance of C4: the example of section 8, text [a + 1]. *)
Lemma a_plus_1_is_refused :
  exists message,
    parseVariableValue Expression.validateExpression Expression.jsEval "a + 1"
    = {| value := None; error := Some message |}
    /\ (forall nanoid dataSource name w,
           saveVariable Expression.validateExpression Expression.jsEval
             nanoid dataSource name "a + 1" w
           = (Some {| save_error := Some message |}, w))
    /\ (forall identifiers normalized,
           Expression.validateExpression "a + 1"
             {| effectful := None; optional := Some true |}
           = Accepted identifiers normalized ->
           exists listed,
             message = "Cannot use variables " ++ String.concat ", " listed
                       ++ " as variable value"
             /\ (forall id, In id listed <-> In id identifiers)
             /\ (forall id, In id identifiers -> names message id))
    /\ (forall identifiers thrown,
           Expression.validateExpression "a + 1"
             {| effectful := None; optional := Some true |}
           = Rejected identifiers thrown ->
           message = thrown).
Proof.
  apply (value_with_identifiers_is_refused Expression.validateExpression
           Expression.jsEval "a + 1").
  discriminate.
Defined.

(** The identifier found in that text, and the message in full. *)
Example a_plus_1_message :
  Expression.validateExpression "a + 1" {| effectful := None; optional := Some true |}
  = Accepted ["a"] "a + 1"
  /\ parseVariableValue Expression.validateExpression Expression.jsEval "a + 1"
     = {| value := None;
          error := Some "Cannot use variables a as variable value" |}.
Proof. split; reflexivity. Qed.

(** Instance of C7: a new variable [count] with text [0] is stored as
    the number zero. *)
Lemma count_zero_is_a_number :
  fst (saveVariable Expression.validateExpression Expression.jsEval
         "fresh" None "count" "0" Sample.blank) = None
  /\ exists scope stored,
       JsMap.get (saved_id "fresh" None)
         (dataSources
            (stores (snd (saveVariable Expression.validateExpression
                            Expression.jsEval "fresh" None "count" "0"
                            Sample.blank))))
       = Some (variable (saved_id "fresh" None) scope "count" stored)
       /\ tagged_by_typeof (VNumber (S754_zero false)) stored.
Proof.
  apply (saveVariable_tags_value Expression.validateExpression Expression.jsEval
           "fresh" None "count" "0" (VNumber (S754_zero false)) ["box"]
           Sample.blank);
    reflexivity.
Defined.

(** The entry that this save writes, in full. *)
Example count_zero_entry :
  JsMap.get "fresh"
    (dataSources
       (stores (snd (saveVariable Expression.validateExpression Expression.jsEval
                       "fresh" None "count" "0" Sample.blank))))
  = Some (variable "fresh" (Some "box") "count" (NumberValue (S754_zero false))).
Proof. reflexivity. Qed.

(** C10, the claim as stated fails: with nothing selected, a save whose
    text does not parse returns the error object and not [undefined]. *)
Lemma unselected_save_returns_error :
  selectedInstanceSelector (Sample.world None []) = None
  /\ saveVariable Expression.validateExpression Expression.jsEval
       "fresh" None "total" "a + 1" (Sample.world None [])
     = (Some {| save_error := Some "Cannot use variables a as variable value" |},
        Sample.world None [])
  /\ fst (saveVariable Expression.validateExpression Expression.jsEval
            "fresh" None "total" "a + 1" (Sample.world None []))
     <> None.
Proof. repeat split. discriminate. Qed.

(** Instance of C10 as amended. *)
Lemma unselected_save_is_silent :
  snd (saveVariable Expression.validateExpression Expression.jsEval
         "fresh" None "total" "0" (Sample.world None []))
  = Sample.world None []
  /\ (error (parseVariableValue Expression.validateExpression Expression.jsEval "0")
      = None ->
      forall w',
        fst (saveVariable Expression.validateExpression Expression.jsEval
               "fresh" None "total" "0" (Sample.world None [])) = None
        /\ fst (saveVariable Expression.validateExpression Expression.jsEval
                  "fresh" None "total" "0" w') = None)
  /\ (forall e,
        error (parseVariableValue Expression.validateExpression Expression.jsEval "0")
        = Some e ->
        fst (saveVariable Expression.validateExpression Expression.jsEval
               "fresh" None "total" "0" (Sample.world None []))
        = Some {| save_error := Some e |}).
Proof.
  apply (saveVariable_without_selection Expression.validateExpression
           Expression.jsEval "fresh" None "total" "0" (Sample.world None [])).
  reflexivity.
Defined.

(** C1, the claim as stated fails: the resource variable [feed] is
    referenced by no prop, and a click on its delete button still leaves
    it in the variables collection. *)
Lemma unreferenced_resource_is_not_deleted :
  usedVariables Expression.validateExpression Expression.decodeDataSourceVariable
    (props (stores (Sample.world (Some ["box"]) []))) = []
  /\ ListItem_onDelete Expression.validateExpression
       Expression.decodeDataSourceVariable Sample.feed
       (Sample.world (Some ["box"]) [])
     = Sample.world (Some ["box"]) []
  /\ JsMap.get "feed"
       (dataSources
          (stores (ListItem_onDelete Expression.validateExpression
                     Expression.decodeDataSourceVariable Sample.feed
                     (Sample.world (Some ["box"]) []))))
     = Some Sample.feed.
Proof. repeat split. Qed.

(** Instance of C1 as amended: [count] cannot be deleted while [title]
    is bound to it, and is deleted once [title] is gone. *)
Lemma count_is_deleted_once_unbound :
  ListItem_onDelete Expression.validateExpression
    Expression.decodeDataSourceVariable Sample.count
    (Sample.world (Some ["box"]) [("title", Sample.title)])
  = Sample.world (Some ["box"]) [("title", Sample.title)]
  /\ exists next,
       ListItem_onDelete Expression.validateExpression
         Expression.decodeDataSourceVariable Sample.count
         (Sample.world (Some ["box"]) [])
       = published next (Sample.world (Some ["box"]) [])
       /\ JsMap.get "count" (dataSources next) = None.
Proof.
  split.
  - apply (proj1 (delete_is_gated Expression.validateExpression
                    Expression.decodeDataSourceVariable Sample.count
                    (Sample.world (Some ["box"]) [("title", Sample.title)]))).
    exists Sample.title. split; [now left|].
    exists "$ws$dataSource$count", {| effectful := None; optional := None |},
      "$ws$dataSource$count".
    repeat split. now left. now left.
  - destruct (proj2 (proj2 (delete_is_gated Expression.validateExpression
                              Expression.decodeDataSourceVariable Sample.count
                              (Sample.world (Some ["box"]) [])))
                eq_refl (fun p (H : In p []) => match H with end))
      as [next [Hstep [Hgone _]]].
    exists next. split; [exact Hstep | exact Hgone].
Defined.

(** C6, on the code: Save on the parameter [item] with the new name
    [row], the value editor holding the text of the empty string literal
    that it is initialised with.  The entry of [item] ends up as a value
    variable holding the empty string, two snapshots are published (the
    rename, then the overwrite), and [onCancel] is called twice. *)
Theorem parameter_save_changes_kind :
  JsMap.get "item"
    (dataSources
       (stores
          (snd (VariableValuePanel_onSave Expression.validateExpression
                  Expression.jsEval "fresh" (Some Sample.item)
                  (Sample.panel "row" Sample.empty_string_literal)
                  (Sample.world (Some ["list"]) [])))))
  = Some (variable "item" (Some "list") "row" (StringValue EmptyString))
  /\ List.length
       (committed
          (snd (VariableValuePanel_onSave Expression.validateExpression
                  Expression.jsEval "fresh" (Some Sample.item)
                  (Sample.panel "row" Sample.empty_string_literal)
                  (Sample.world (Some ["list"]) []))))
     = 2
  /\ onCancel_calls
       (fst (VariableValuePanel_onSave Expression.validateExpression
               Expression.jsEval "fresh" (Some Sample.item)
               (Sample.panel "row" Sample.empty_string_literal)
               (Sample.world (Some ["list"]) [])))
     = 2.
Proof. repeat split. Qed.

(** C8. The text of the two braces is accepted without identifiers, is
    evaluated between parentheses and yields the empty object; read as
    it stands it would be an empty block, whose value is [undefined]. *)
Theorem empty_braces_are_an_object :
  Expression.validateExpression "{}" {| effectful := None; optional := Some true |}
  = Accepted [] "{}"
  /\ parseVariableValue Expression.validateExpression Expression.jsEval "{}"
     = {| value := Some (VObject []); error := None |}
  /\ Expression.jsEval "({})" = inl (VObject [])
  /\ Expression.jsEval "{}" = inl VUndefined.
Proof. repeat split. Qed.

(** The session of section 8: [count] is stored as the number zero; a
    save with the text of another variable's identifier fails and leaves
    the stored entry; selecting [count] binds [title] to its encoded
    identifier; while [title] is bound the delete button of [count] does
    nothing; once the binding is cleared the button deletes [count]. *)
Example editing_session :
  JsMap.get "count" (dataSources (stores Sample.created)) = Some Sample.count
  /\ saveVariable Expression.validateExpression Expression.jsEval
       "unused" (Some Sample.count) "count"
       (Expression.encodeDataSourceVariable "other") Sample.created
     = (Some {| save_error :=
                  Some "Cannot use variables $ws$dataSource$other as variable value" |},
        Sample.created)
  /\ JsMap.get "title" (props (stores Sample.bound)) = Some Sample.title
  /\ ListItem_onDelete Expression.validateExpression
       Expression.decodeDataSourceVariable Sample.count Sample.bound
     = Sample.bound
  /\ JsMap.get "title" (props (stores Sample.unbound)) = None
  /\ JsMap.get "count"
       (dataSources
          (stores (ListItem_onDelete Expression.validateExpression
                     Expression.decodeDataSourceVariable Sample.count
                     Sample.unbound)))
     = None.
Proof. repeat split. Qed.

(** ** More facts about the containers *)
Section MoreMapFacts.

Context {V : Type}.
Implicit Types (m : JsMap.t V) (k : string) (v : V).

Lemma set_set_same m k v v' : JsMap.set k v (JsMap.set k v' m) = JsMap.set k v m.
Proof.
  induction m as [|[k0 v0] rest IH]; simpl.
  - now rewrite String.eqb_refl.
  - destruct (String.eqb k k0) eqn:E; simpl.
    + now rewrite String.eqb_refl.
    + now rewrite E, IH.
Qed.

Lemma delete_delete m k : JsMap.delete k (JsMap.delete k m) = JsMap.delete k m.
Proof.
  induction m as [|[k0 v0] rest IH]; simpl; auto.
  destruct (String.eqb k k0) eqn:E; simpl; auto. now rewrite E, IH.
Qed.

Lemma has_get m k : JsMap.has k m = true <-> exists v, JsMap.get k m = Some v.
Proof.
  unfold JsMap.has. destruct (JsMap.get k m) as [v|].
  - split; [now exists v | reflexivity].
  - split; [discriminate | intros [v [=]]].
Qed.

Lemma keys_set_present m k v :
  JsMap.has k m = true -> keys_of (JsMap.set k v m) = keys_of m.
Proof.
  unfold JsMap.has, keys_of. induction m as [|[k0 v0] rest IH]; simpl.
  - discriminate.
  - destruct (String.eqb_spec k k0) as [->|Hne]; simpl; [reflexivity|].
    intros H. now rewrite IH.
Qed.

Lemma keys_set_absent m k v :
  JsMap.has k m = false -> keys_of (JsMap.set k v m) = (keys_of m ++ [k])%list.
Proof.
  unfold JsMap.has, keys_of. induction m as [|[k0 v0] rest IH]; simpl.
  - reflexivity.
  - destruct (String.eqb k k0); simpl; [discriminate|].
    intros H. now rewrite IH.
Qed.

Lemma keys_delete m k :
  keys_of (JsMap.delete k m)
  = filter (fun k' => negb (String.eqb k k')) (keys_of m).
Proof.
  unfold keys_of. induction m as [|[k0 v0] rest IH]; simpl; auto.
  destruct (String.eqb k k0); simpl; [exact IH | now rewrite IH].
Qed.

Lemma In_delete m k k' v :
  In (k', v) (JsMap.delete k m) <-> In (k', v) m /\ k' <> k.
Proof.
  induction m as [|[k0 v0] rest IH]; simpl.
  - tauto.
  - destruct (String.eqb_spec k k0) as [->|Hne]; simpl; rewrite IH.
    + split.
      * intros [H Hk]. tauto.
      * intros [[[= <- <-]|H] Hk]; [congruence | tauto].
    + split.
      * intros [[= <- <-]|[H Hk]]; [split; [now left | congruence] | tauto].
      * intros [[H|H] Hk]; tauto.
Qed.

Lemma In_values m v : In v (JsMap.values m) <-> exists k, In (k, v) m.
Proof.
  unfold JsMap.values. rewrite in_map_iff. split.
  - intros [[k v'] [E H]]. simpl in E. subst. now exists k.
  - intros [k H]. now exists (k, v).
Qed.

End MoreMapFacts.

(** ** Deduplication *)

Lemma filter_filter (p q : string -> bool) (xs : list string) :
  filter p (filter q xs) = filter (fun x => q x && p x) xs.
Proof.
  induction xs as [|x xs IH]; simpl; [reflexivity|].
  destruct (q x); simpl; [destruct (p x)|]; now rewrite IH.
Qed.

Lemma first_occurrences_filter (p : string -> bool) (xs : list string) :
  first_occurrences (filter p xs) = filter p (first_occurrences xs).
Proof.
  induction xs as [|x xs IH]; simpl; [reflexivity|].
  destruct (p x) eqn:E; simpl; rewrite IH, !filter_filter.
  - f_equal. apply filter_ext. intros y. apply andb_comm.
  - apply filter_ext_in. intros y _.
    destruct (String.eqb_spec y x) as [->|Hne]; simpl; [now rewrite E | reflexivity].
Qed.

Lemma In_first_occurrences (xs : list string) (x : string) :
  In x (first_occurrences xs) <-> In x xs.
Proof.
  induction xs as [|y ys IH]; simpl; [tauto|].
  rewrite filter_In, IH, negb_true_iff. split.
  - intros [->|[H _]]; auto.
  - intros [->|H]; auto.
    destruct (String.eqb_spec x y) as [->|Hne]; auto.
Qed.

Lemma NoDup_first_occurrences (xs : list string) : NoDup (first_occurrences xs).
Proof.
  induction xs as [|y ys IH]; simpl; constructor.
  - rewrite filter_In, String.eqb_refl. intros [_ [=]].
  - now apply NoDup_filter.
Qed.

(** Adding the elements of a list to a set appends, in their order, the
    first occurrences of those that the set does not hold. *)
Lemma add_all_first_occurrences (xs : list string) (s : JsSet.t) :
  JsSet.add_all xs s
  = (s ++ first_occurrences (filter (fun x => negb (JsSet.has x s)) xs))%list.
Proof.
  unfold JsSet.add_all. revert s.
  induction xs as [|x xs IH]; intros s; simpl.
  - now rewrite app_nil_r.
  - rewrite IH. unfold JsSet.add. destruct (JsSet.has x s) eqn:E; simpl.
    + reflexivity.
    + rewrite <- app_assoc. simpl. do 2 f_equal.
      rewrite <- first_occurrences_filter. f_equal.
      rewrite filter_filter.
      apply filter_ext. intros y. unfold JsSet.has.
      rewrite existsb_app. simpl. now rewrite orb_false_r, negb_orb.
Qed.

(** ** More on parsing and saving *)
Section SaveVariableMore.

Variable validateExpression : string -> ValidateOptions -> Validation.
Variable jsEval : string -> JSValue + string.

(** X4. [parseVariableValue] returns either a value and no error, or an
    error and no value: never both, never neither. *)
Theorem parseVariableValue_value_xor_error :
  forall (code : string),
    (exists v, parseVariableValue validateExpression jsEval code
               = {| value := Some v; error := None |})
    \/ (exists e, parseVariableValue validateExpression jsEval code
                  = {| value := None; error := Some e |}).
Proof.
  intros code. unfold parseVariableValue.
  destruct (validateExpression code _) as [ids normalized|ids message].
  - destruct (Nat.eqb _ 0).
    + destruct (jsEval _) as [v|message]; [left | right]; eexists; reflexivity.
    + right. eexists. reflexivity.
  - right. now exists message.
Qed.

(** X5. When validation returns with identifiers, the error lists each
    of them once, in the order of their first occurrence, whatever the
    number of times the text mentions them. *)
Theorem parseVariableValue_lists_first_occurrences :
  forall (code : string) (identifiers : list string) (normalized : string),
    validateExpression code {| effectful := None; optional := Some true |}
    = Accepted identifiers normalized ->
    identifiers <> [] ->
    error (parseVariableValue validateExpression jsEval code)
    = Some ("Cannot use variables "
            ++ String.concat ", " (first_occurrences identifiers)
            ++ " as variable value")
    /\ NoDup (first_occurrences identifiers)
    /\ (forall id, In id (first_occurrences identifiers) <-> In id identifiers).
Proof.
  intros code identifiers normalized H Hne. split; [|split].
  - rewrite (parseVariableValue_identifiers _ _ _ _ _ H Hne). simpl.
    rewrite add_all_first_occurrences.
    change (filter (fun x => negb (JsSet.has x JsSet.empty)) identifiers)
      with (filter (fun _ : string => true) identifiers).
    now rewrite filter_true.
  - apply NoDup_first_occurrences.
  - intros id. apply In_first_occurrences.
Qed.

(** X1. A save that goes through keeps the scope that the store has
    under the variable's id, whatever instance is selected and whatever
    scope the edited copy carries; when the store has no entry under the
    id, or an entry without scope, the scope is the first instance of the
    selector. *)
Theorem saveVariable_scope :
  forall (nanoid : string) (dataSource : option DataSource) (name text : string)
         (v : JSValue) (instanceSelector : list string) (w : World),
    parseVariableValue validateExpression jsEval text
    = {| value := Some v; error := None |} ->
    selectedInstanceSelector w = Some instanceSelector ->
    (forall d scope,
        JsMap.get (saved_id nanoid dataSource) (dataSources (stores w)) = Some d ->
        DataSource.scopeInstanceId d = Some scope ->
        exists stored,
          JsMap.get (saved_id nanoid dataSource)
            (dataSources (stores (snd (saveVariable validateExpression jsEval
                                         nanoid dataSource name text w))))
          = Some (variable (saved_id nanoid dataSource) (Some scope) name stored))
    /\ ((forall d,
            JsMap.get (saved_id nanoid dataSource) (dataSources (stores w)) = Some d ->
            DataSource.scopeInstanceId d = None) ->
        exists stored,
          JsMap.get (saved_id nanoid dataSource)
            (dataSources (stores (snd (saveVariable validateExpression jsEval
                                         nanoid dataSource name text w))))
          = Some (variable (saved_id nanoid dataSource)
                    (hd_error instanceSelector) name stored)).
Proof.
  intros nanoid dataSource name text v sel w Hparse Hsel.
  rewrite (saveVariable_commits _ _ _ _ _ _ _ _ _ Hparse Hsel). simpl.
  rewrite JsMapFacts.get_set_same. split.
  - intros d scope Hget Hscope. rewrite Hget, Hscope. now eexists.
  - intros Hnone.
    destruct (JsMap.get (saved_id nanoid dataSource) (dataSources (stores w)))
      as [d|]; [rewrite (Hnone d eq_refl)|]; now eexists.
Qed.

(** X2. Whatever its outcome, [saveVariable] leaves the props, the
    instances and the selection as they were, changes no variable other
    than the one under the saved id, and changes no resource other than
    the one of the resource variable that it converts. *)
Theorem saveVariable_frame :
  forall (nanoid : string) (dataSource : option DataSource) (name text : string)
         (w : World),
    props (stores (snd (saveVariable validateExpression jsEval
                          nanoid dataSource name text w)))
    = props (stores w)
    /\ instances (stores (snd (saveVariable validateExpression jsEval
                                 nanoid dataSource name text w)))
       = instances (stores w)
    /\ selectedInstanceSelector (snd (saveVariable validateExpression jsEval
                                        nanoid dataSource name text w))
       = selectedInstanceSelector w
    /\ (forall k,
           k <> saved_id nanoid dataSource ->
           JsMap.get k (dataSources (stores (snd (saveVariable validateExpression
                                                    jsEval nanoid dataSource name
                                                    text w))))
           = JsMap.get k (dataSources (stores w)))
    /\ (forall r,
           deleted_resource dataSource <> Some r ->
           JsMap.get r (resources (stores (snd (saveVariable validateExpression
                                                  jsEval nanoid dataSource name
                                                  text w))))
           = JsMap.get r (resources (stores w))).
Proof.
  intros nanoid dataSource name text w.
  destruct (error (parseVariableValue validateExpression jsEval text)) as [e|] eqn:E.
  - rewrite (saveVariable_error _ _ _ _ _ _ _ _ E). simpl. repeat split.
  - destruct (selectedInstanceSelector w) as [sel|] eqn:Hsel.
    + destruct (parseVariableValue_value _ _ _ E) as [v Hparse].
      rewrite (saveVariable_commits _ _ _ _ _ _ _ _ _ Hparse Hsel). simpl.
      repeat split; auto.
      * intros k Hk. now apply JsMapFacts.get_set_other.
      * intros r Hr.
        destruct dataSource as [[id s n val|id s n|id s n resourceId]|]; auto.
        apply JsMapFacts.get_delete_other. simpl in Hr. congruence.
    + rewrite (saveVariable_unselected _ _ _ _ _ _ _ E Hsel). simpl.
      rewrite Hsel. repeat split.
Qed.

(** X3. A save that goes through keeps the order of the variables: an
    id that the store holds stays where it is, and a new id is appended
    after all the others. *)
Theorem saveVariable_order :
  forall (nanoid : string) (dataSource : option DataSource) (name text : string)
         (v : JSValue) (instanceSelector : list string) (w : World),
    parseVariableValue validateExpression jsEval text
    = {| value := Some v; error := None |} ->
    selectedInstanceSelector w = Some instanceSelector ->
    (JsMap.has (saved_id nanoid dataSource) (dataSources (stores w)) = true ->
     keys_of (dataSources (stores (snd (saveVariable validateExpression jsEval
                                          nanoid dataSource name text w))))
     = keys_of (dataSources (stores w)))
    /\ (JsMap.has (saved_id nanoid dataSource) (dataSources (stores w)) = false ->
        keys_of (dataSources (stores (snd (saveVariable validateExpression jsEval
                                             nanoid dataSource name text w))))
        = (keys_of (dataSources (stores w)) ++ [saved_id nanoid dataSource])%list).
Proof.
  intros nanoid dataSource name text v sel w Hparse Hsel.
  rewrite (saveVariable_commits _ _ _ _ _ _ _ _ _ Hparse Hsel). simpl. split.
  - apply keys_set_present.
  - apply keys_set_absent.
Qed.

(** X6. Saving the same edit a second time changes no store: the second
    save returns [undefined] again and its snapshot equals the first. *)
Theorem saveVariable_twice :
  forall (nanoid : string) (dataSource : option DataSource) (name text : string)
         (v : JSValue) (instanceSelector : list string) (w : World),
    parseVariableValue validateExpression jsEval text
    = {| value := Some v; error := None |} ->
    selectedInstanceSelector w = Some instanceSelector ->
    fst (saveVariable validateExpression jsEval nanoid dataSource name text
           (snd (saveVariable validateExpression jsEval nanoid dataSource name
                   text w)))
    = None
    /\ stores (snd (saveVariable validateExpression jsEval nanoid dataSource name
                      text
                      (snd (saveVariable validateExpression jsEval nanoid
                              dataSource name text w))))
       = stores (snd (saveVariable validateExpression jsEval nanoid dataSource
                        name text w)).
Proof.
  intros nanoid dataSource name text v sel w Hparse Hsel.
  rewrite (saveVariable_commits _ _ _ _ _ _ _ _ _ Hparse Hsel). simpl snd.
  assert (Hsel' : forall next, selectedInstanceSelector (published next w) = Some sel)
    by (intros next; exact Hsel).
  rewrite (saveVariable_commits _ _ _ _ _ _ _ _ _ Hparse (Hsel' _)).
  split; [reflexivity|]. simpl. rewrite JsMapFacts.get_set_same. simpl.
  rewrite set_set_same. f_equal.
  - do 2 f_equal.
    destruct (JsMap.get (saved_id nanoid dataSource) (dataSources (stores w)))
      as [d|]; [destruct (DataSource.scopeInstanceId d)|];
      try reflexivity; now destruct (hd_error sel).
  - destruct dataSource as [[id s n val|id s n|id s n resourceId]|]; auto.
    apply delete_delete.
Qed.

End SaveVariableMore.

(** ** More on renaming, deleting and the Save button *)
Section EditVariableMore.

Variable validateExpression : string -> ValidateOptions -> Validation.
Variable jsEval : string -> JSValue + string.

Lemma with_name_twice (d : DataSource) (name name' : string) :
  DataSource.with_name (DataSource.with_name d name) name'
  = DataSource.with_name d name'.
Proof. now destruct d. Qed.

(** X7. [renameVariable] writes the caller's copy of the variable, with
    the new name, under its id: whatever the store held there, and when
    it held nothing the variable is created again, after all the others.
    No other variable and no other collection changes, and the stores
    after two renames in a row are those after the second one alone. *)
Theorem renameVariable_writes_copy :
  forall (d : DataSource) (name : string) (w : World),
    JsMap.get (DataSource.id d) (dataSources (stores (renameVariable d name w)))
    = Some (DataSource.with_name d name)
    /\ (forall k,
           k <> DataSource.id d ->
           JsMap.get k (dataSources (stores (renameVariable d name w)))
           = JsMap.get k (dataSources (stores w)))
    /\ (JsMap.has (DataSource.id d) (dataSources (stores w)) = true ->
        keys_of (dataSources (stores (renameVariable d name w)))
        = keys_of (dataSources (stores w)))
    /\ (JsMap.has (DataSource.id d) (dataSources (stores w)) = false ->
        keys_of (dataSources (stores (renameVariable d name w)))
        = (keys_of (dataSources (stores w)) ++ [DataSource.id d])%list)
    /\ resources (stores (renameVariable d name w)) = resources (stores w)
    /\ props (stores (renameVariable d name w)) = props (stores w)
    /\ instances (stores (renameVariable d name w)) = instances (stores w)
    /\ (forall name',
           stores (renameVariable (DataSource.with_name d name) name'
                     (renameVariable d name w))
           = stores (renameVariable d name' w)).
Proof.
  intros d name w. unfold renameVariable, createTransaction. simpl.
  repeat split.
  - apply JsMapFacts.get_set_same.
  - intros k Hk. now apply JsMapFacts.get_set_other.
  - apply keys_set_present.
  - apply keys_set_absent.
  - intros name'. rewrite with_name_twice.
    replace (DataSource.id (DataSource.with_name d name)) with (DataSource.id d)
      by now destruct d.
    now rewrite set_set_same.
Qed.

(** X8. [deleteVariable] has no guard of its own: whatever the kind of
    the variable and whether or not a prop refers to it, its id is gone
    afterwards, the other variables keep their entries and their order,
    and the resources, also the one of a resource variable, the props
    and the instances are as before. *)
Theorem deleteVariable_unguarded :
  forall (d : DataSource) (w : World),
    JsMap.get (DataSource.id d) (dataSources (stores (deleteVariable d w))) = None
    /\ (forall k,
           k <> DataSource.id d ->
           JsMap.get k (dataSources (stores (deleteVariable d w)))
           = JsMap.get k (dataSources (stores w)))
    /\ keys_of (dataSources (stores (deleteVariable d w)))
       = filter (fun k => negb (String.eqb (DataSource.id d) k))
           (keys_of (dataSources (stores w)))
    /\ resources (stores (deleteVariable d w)) = resources (stores w)
    /\ props (stores (deleteVariable d w)) = props (stores w)
    /\ instances (stores (deleteVariable d w)) = instances (stores w).
Proof.
  intros d w. unfold deleteVariable, createTransaction. simpl. repeat split.
  - apply JsMapFacts.get_delete_same.
  - intros k Hk. now apply JsMapFacts.get_delete_other.
  - apply keys_delete.
Qed.

Lemma onSave_not_parameter (nanoid : string) (variable : option DataSource)
    (st : PanelState) (w : World) :
  panel_name st <> EmptyString ->
  is_parameter variable = false ->
  VariableValuePanel_onSave validateExpression jsEval nanoid variable st w
  = match saveVariable validateExpression jsEval nanoid variable
            (panel_name st) (panel_value st) w with
    | (Some {| save_error := Some e |}, w') => (with_valueErrors [e] st, w')
    | (_, w') => (closed_once st, w')
    end.
Proof.
  intros Hname Hparam. unfold VariableValuePanel_onSave.
  destruct (panel_name st) as [|c rest] eqn:Ename; [congruence|]. simpl Nat.eqb.
  cbv iota.
  destruct variable as [[id s n val|id s n|id s n r]|]; try discriminate;
    rewrite <- Ename;
    destruct (saveVariable _ _ _ _ _ _ _) as [[[[e|]]|] w']; reflexivity.
Qed.

(** X9. With a name, a text that evaluates and no instance selected, the
    Save button on a variable that is not a parameter closes the panel,
    shows no error and writes nothing. *)
Theorem onSave_closes_without_selection :
  forall (nanoid : string) (variable : option DataSource) (st : PanelState)
         (w : World),
    panel_name st <> EmptyString ->
    is_parameter variable = false ->
    error (parseVariableValue validateExpression jsEval (panel_value st)) = None ->
    selectedInstanceSelector w = None ->
    VariableValuePanel_onSave validateExpression jsEval nanoid variable st w
    = (closed_once st, w).
Proof.
  intros nanoid variable st w Hname Hparam Hparse Hsel.
  rewrite (onSave_not_parameter _ _ _ _ Hname Hparam).
  now rewrite (saveVariable_unselected _ _ _ _ _ _ _ Hparse Hsel).
Qed.

(** X10. The Save button keeps the panel open and writes nothing when
    the name is empty, showing the error under the name field whatever
    the variable and the text are, and, for a variable that is not a
    parameter, when the text does not evaluate, showing that error under
    the value editor. *)
Theorem onSave_errors_keep_open :
  forall (nanoid : string) (variable : option DataSource) (st : PanelState)
         (w : World),
    (panel_name st = EmptyString ->
     VariableValuePanel_onSave validateExpression jsEval nanoid variable st w
     = (with_nameErrors ["Variable name is required"] st, w))
    /\ (panel_name st <> EmptyString ->
        is_parameter variable = false ->
        forall e,
          error (parseVariableValue validateExpression jsEval (panel_value st))
          = Some e ->
          VariableValuePanel_onSave validateExpression jsEval nanoid variable st w
          = (with_valueErrors [e] st, w)).
Proof.
  intros nanoid variable st w. split.
  - intros Hname. unfold VariableValuePanel_onSave. cbv zeta.
    replace (Nat.eqb (String.length (panel_name st)) 0) with true
      by now rewrite Hname.
    reflexivity.
  - intros Hname Hparam e Hparse.
    rewrite (onSave_not_parameter _ _ _ _ Hname Hparam).
    now rewrite (saveVariable_error _ _ _ _ _ _ _ _ Hparse).
Qed.

End EditVariableMore.

(** ** Binding and unbinding a prop *)

(** X11. With an instance selected, [setPropValue] on a prop that the
    store holds under [propId] replaces its value and keeps its id, its
    instance and its name: [propName] is not used.  The prop is written
    under the id that it carries; no other prop and no other collection
    changes. *)
Theorem setPropValue_updates_existing :
  forall (nanoid propId propName : string) (propValue : PropValue)
         (existing : WsProp) (instanceSelector : list string) (w : World),
    selectedInstanceSelector w = Some instanceSelector ->
    JsMap.get propId (props (stores w)) = Some existing ->
    JsMap.get (prop_id existing)
      (props (stores (setPropValue nanoid (Some propId) propName propValue w)))
    = Some {| prop_id := prop_id existing;
              prop_instanceId := prop_instanceId existing;
              prop_name := prop_name existing;
              prop_value := propValue |}
    /\ (forall k,
           k <> prop_id existing ->
           JsMap.get k
             (props (stores (setPropValue nanoid (Some propId) propName propValue w)))
           = JsMap.get k (props (stores w)))
    /\ dataSources (stores (setPropValue nanoid (Some propId) propName propValue w))
       = dataSources (stores w)
    /\ resources (stores (setPropValue nanoid (Some propId) propName propValue w))
       = resources (stores w)
    /\ instances (stores (setPropValue nanoid (Some propId) propName propValue w))
       = instances (stores w).
Proof.
  intros nanoid propId propName propValue existing sel w Hsel Hget.
  unfold setPropValue. rewrite Hsel.
  unfold createTransaction, tx_bind, Draft.props_get. rewrite Hget. simpl.
  repeat split.
  - apply JsMapFacts.get_set_same.
  - intros k Hk. now apply JsMapFacts.get_set_other.
Qed.

(** X12. Without a selected instance [setPropValue] does nothing.  With
    one, when no [propId] is given or the store holds nothing under it,
    a prop is created under the fresh id, not under [propId], on the
    first instance of the selector and with the given name and value; no
    other prop changes. *)
Theorem setPropValue_creates :
  forall (nanoid : string) (propId : option string) (propName : string)
         (propValue : PropValue) (w : World),
    (selectedInstanceSelector w = None ->
     setPropValue nanoid propId propName propValue w = w)
    /\ (forall instanceSelector,
           selectedInstanceSelector w = Some instanceSelector ->
           (forall id, propId = Some id -> JsMap.get id (props (stores w)) = None) ->
           JsMap.get nanoid
             (props (stores (setPropValue nanoid propId propName propValue w)))
           = Some {| prop_id := nanoid;
                     prop_instanceId := hd_error instanceSelector;
                     prop_name := propName;
                     prop_value := propValue |}
           /\ (forall k,
                  k <> nanoid ->
                  JsMap.get k
                    (props (stores (setPropValue nanoid propId propName propValue w)))
                  = JsMap.get k (props (stores w)))).
Proof.
  intros nanoid propId propName propValue w. split.
  - intros Hsel. unfold setPropValue. now rewrite Hsel.
  - intros sel Hsel Hmissing. unfold setPropValue. rewrite Hsel.
    unfold createTransaction, tx_bind, Draft.props_get, tx_ret.
    destruct propId as [id|]; [rewrite (Hmissing id eq_refl)|]; simpl; split;
      try apply JsMapFacts.get_set_same;
      intros k Hk; now apply JsMapFacts.get_set_other.
Qed.

(** X13. [removeExpression] checks the selection only on the branch that
    writes a starting value.  Without a starting value the prop under
    [propId] is deleted whether or not an instance is selected, and
    nothing else changes; with a starting value and no instance selected
    nothing changes at all, so the prop stays as it is; and with neither
    a starting value nor a [propId] nothing changes either. *)
Theorem removeExpression_branches :
  forall (nanoid : string) (propId : option string) (propName : string)
         (w : World),
    (forall id,
        propId = Some id ->
        JsMap.get id
          (props (stores (removeExpression nanoid None propId propName w))) = None
        /\ (forall k,
               k <> id ->
               JsMap.get k
                 (props (stores (removeExpression nanoid None propId propName w)))
               = JsMap.get k (props (stores w)))
        /\ dataSources (stores (removeExpression nanoid None propId propName w))
           = dataSources (stores w)
        /\ resources (stores (removeExpression nanoid None propId propName w))
           = resources (stores w)
        /\ instances (stores (removeExpression nanoid None propId propName w))
           = instances (stores w))
    /\ (forall startingValue,
           selectedInstanceSelector w = None ->
           removeExpression nanoid (Some startingValue) propId propName w = w)
    /\ (propId = None -> removeExpression nanoid None propId propName w = w).
Proof.
  intros nanoid propId propName w. repeat split.
  - subst. apply JsMapFacts.get_delete_same.
  - subst. intros k Hk. simpl. now apply JsMapFacts.get_delete_other.
  - subst. reflexivity.
  - subst. reflexivity.
  - subst. reflexivity.
  - intros startingValue Hsel. unfold removeExpression, setPropValue.
    now rewrite Hsel.
  - intros ->. reflexivity.
Qed.

(** ** More on the scope resolver *)
Section ScopeResolverMore.

Variable collectionComponent : string.

Lemma skips_app (sel more : list string) (insts : JsMap.t Instance) (d : DataSource) :
  sel <> [] ->
  skips collectionComponent (sel ++ more) insts d
  = skips collectionComponent sel insts d.
Proof. destruct sel as [|target rest]; [congruence | reflexivity]. Qed.

Lemma matches_app (sel more : list string) (d : DataSource) :
  matches sel d = true -> matches (sel ++ more) d = true.
Proof.
  unfold matches, includes. destruct (DataSource.scopeInstanceId d); auto.
  rewrite existsb_app. now intros ->.
Qed.

Lemma visible_iff (sel : list string) (dataSources : JsMap.t DataSource)
    (insts : JsMap.t Instance) (d : DataSource) :
  In d (selectedInstanceVariables collectionComponent (Some sel) dataSources insts)
  <-> In d (JsMap.values dataSources)
      /\ skips collectionComponent sel insts d = false
      /\ matches sel d = true.
Proof.
  rewrite selectedInstanceVariables_filter, filter_In, andb_true_iff,
    negb_true_iff. tauto.
Qed.

(** X14. Appending ancestors to a selector hides nothing: every variable
    visible at a selector is visible at the selector followed by any
    further ids. *)
Theorem selectedInstanceVariables_monotone :
  forall (instanceSelector ancestors : list string)
         (dataSources : JsMap.t DataSource) (instances : JsMap.t Instance)
         (d : DataSource),
    In d (selectedInstanceVariables collectionComponent (Some instanceSelector)
            dataSources instances) ->
    In d (selectedInstanceVariables collectionComponent
            (Some (instanceSelector ++ ancestors)%list) dataSources instances).
Proof.
  intros sel more dataSources insts d. rewrite !visible_iff.
  intros [Hin [Hskip Hmatch]]. split; [exact Hin|].
  assert (Hne : sel <> []).
  { intros ->. unfold matches, includes in Hmatch.
    destruct (DataSource.scopeInstanceId d); discriminate. }
  rewrite (skips_app _ _ _ _ Hne). split; [exact Hskip|].
  now apply matches_app.
Qed.

(** X15. A parameter of the collection whose scope occurs in the
    selector is hidden only when its scope is the target instance and
    that instance is a collection: it is visible from every other target,
    such as a descendant of the collection, and from a target of its
    scope that the instances do not hold or that has another component. *)
Theorem parameter_hidden_only_at_collection :
  forall (instanceSelector : list string) (dataSources : JsMap.t DataSource)
         (instances : JsMap.t Instance) (id scope name : string),
    In (parameter id (Some scope) name) (JsMap.values dataSources) ->
    In scope instanceSelector ->
    (hd_error instanceSelector <> Some scope ->
     In (parameter id (Some scope) name)
        (selectedInstanceVariables collectionComponent (Some instanceSelector)
           dataSources instances))
    /\ (hd_error instanceSelector = Some scope ->
        (forall inst, JsMap.get scope instances = Some inst ->
                      component inst <> collectionComponent) ->
        In (parameter id (Some scope) name)
           (selectedInstanceVariables collectionComponent (Some instanceSelector)
              dataSources instances))
    /\ (forall inst,
           hd_error instanceSelector = Some scope ->
           JsMap.get scope instances = Some inst ->
           component inst = collectionComponent ->
           ~ In (parameter id (Some scope) name)
               (selectedInstanceVariables collectionComponent
                  (Some instanceSelector) dataSources instances)).
Proof.
  intros sel dataSources insts id scope name Hin Hscope.
  assert (Hmatch : matches sel (parameter id (Some scope) name) = true)
    by now apply includes_In.
  repeat split.
  - intros Hhd. apply visible_iff. repeat split; auto.
    unfold skips. simpl. destruct (hd_error sel) as [target|]; simpl; auto.
    destruct (String.eqb_spec target scope) as [->|Hne]; [congruence | reflexivity].
  - intros Hhd Hcomp. apply visible_iff. repeat split; auto.
    unfold skips. simpl. rewrite Hhd. simpl. rewrite String.eqb_refl. simpl.
    destruct (JsMap.get scope insts) as [inst|] eqn:Hget; [|reflexivity].
    apply String.eqb_neq. now apply Hcomp.
  - intros inst Hhd Hget Hcomp Hvisible. apply visible_iff in Hvisible.
    destruct Hvisible as [_ [Hskip _]]. unfold skips in Hskip. simpl in Hskip.
    rewrite Hhd in Hskip. simpl in Hskip.
    rewrite String.eqb_refl, Hget, Hcomp, String.eqb_refl in Hskip.
    discriminate.
Qed.

(** X16. The exclusion never hides a value or resource variable: a
    variable that is not a parameter is visible exactly when the
    collection holds it and its scope occurs in the selector, whatever
    the components of the instances are. *)
Theorem selectedInstanceVariables_not_parameter :
  forall (instanceSelector : list string) (dataSources : JsMap.t DataSource)
         (instances : JsMap.t Instance) (d : DataSource),
    DataSource.type d <> TParameter ->
    (In d (selectedInstanceVariables collectionComponent (Some instanceSelector)
             dataSources instances)
     <-> In d (JsMap.values dataSources) /\ in_scope instanceSelector d).
Proof.
  intros sel dataSources insts d Hty.
  rewrite visible_iff, matches_in_scope.
  assert (Hskip : skips collectionComponent sel insts d = false).
  { unfold skips. destruct (DataSource.type d); simpl; congruence. }
  rewrite Hskip. tauto.
Qed.

End ScopeResolverMore.

(** ** The expression of a prop and the variables it protects *)
Section Binding.

Variable validateExpression : string -> ValidateOptions -> Validation.
Variable decodeDataSourceVariable : string -> option string.
Variable encodeDataSourceVariable : string -> string.

(** X17. A variable that the panel marks as selected, because the
    expression of the current prop mentions it, cannot be deleted: its
    delete button is disabled and a click changes nothing. *)
Theorem selected_variable_is_not_deletable :
  forall (propId : option string) (p : WsProp) (ids : JsSet.t)
         (variable : DataSource) (w : World),
    VariablesPanel_prop propId w = Some p ->
    getExpressionVariables validateExpression decodeDataSourceVariable
      (propExpression (Some p)) = inl ids ->
    JsSet.has (DataSource.id variable) ids = true ->
    deletable variable
      (usedVariables validateExpression decodeDataSourceVariable (props (stores w)))
    = false
    /\ ListItem_onDelete validateExpression decodeDataSourceVariable variable w = w.
Proof.
  intros propId p ids variable w Hprop Hids Hhas.
  assert (Hused : JsSet.has (DataSource.id variable)
                    (usedVariables validateExpression decodeDataSourceVariable
                       (props (stores w))) = true).
  { apply used_has_contributes. exists p. split.
    - unfold VariablesPanel_prop in Hprop. destruct propId as [id|]; [|discriminate].
      destruct (String.eqb id EmptyString); [discriminate|].
      exact (JsMapFacts.get_in_values _ _ _ Hprop).
    - unfold getExpressionVariables, propExpression in Hids.
      unfold contributes, validated_texts.
      destruct (prop_value p) as [e|steps|ty v];
        try (injection Hids as <-; discriminate).
      destruct (String.eqb e EmptyString); [injection Hids as <-; discriminate|].
      destruct (validateExpression e _) as [identifiers code|] eqn:E; [|discriminate].
      injection Hids as <-. apply JsSetFacts.has_In, collect_In in Hhas.
      destruct Hhas as [[]|[identifier [Hin Hdecode]]].
      exists e, {| effectful := None; optional := None |}, identifier.
      rewrite E. repeat split; auto. now left. }
  unfold ListItem_onDelete, deletable. rewrite Hused.
  now rewrite andb_false_r.
Qed.

(** X19. Selecting a variable for a prop protects it: provided that the
    validator finds, in the encoded id of the variable, an identifier
    that decodes to its id again, the delete button of the variable does
    nothing once the prop is bound to it. *)
Theorem bound_variable_is_protected :
  forall (nanoid : string) (propId : option string) (propName : string)
         (variable : DataSource) (instanceSelector : list string) (w : World),
    selectedInstanceSelector w = Some instanceSelector ->
    (exists identifier,
        In identifier
          (identifiers_of
             (validateExpression
                (encodeDataSourceVariable (DataSource.id variable))
                {| effectful := None; optional := None |}))
        /\ decodeDataSourceVariable identifier = Some (DataSource.id variable)) ->
    ListItem_onDelete validateExpression decodeDataSourceVariable variable
      (ListItem_onSelect encodeDataSourceVariable nanoid propId propName variable w)
    = ListItem_onSelect encodeDataSourceVariable nanoid propId propName variable w.
Proof.
  intros nanoid propId propName variable sel w Hsel [identifier [Hin Hdecode]].
  assert (Hbound : exists p,
             In p (JsMap.values
                     (props (stores (ListItem_onSelect encodeDataSourceVariable
                                       nanoid propId propName variable w))))
             /\ prop_value p
                = ExpressionProp (encodeDataSourceVariable (DataSource.id variable))).
  { unfold ListItem_onSelect, setPropValue. rewrite Hsel.
    unfold createTransaction, tx_bind, Draft.props_get, tx_ret.
    destruct propId as [id|]; [destruct (JsMap.get id (props (stores w)))|];
      simpl; eexists; (split; [eapply JsMapFacts.get_in_values,
                                 JsMapFacts.get_set_same | reflexivity]). }
  destruct Hbound as [p [Hp Hvalue]].
  assert (Hused : JsSet.has (DataSource.id variable)
                    (usedVariables validateExpression decodeDataSourceVariable
                       (props (stores (ListItem_onSelect encodeDataSourceVariable
                                         nanoid propId propName variable w))))
                  = true).
  { apply used_has_contributes. exists p. split; [exact Hp|].
    unfold contributes, validated_texts. rewrite Hvalue.
    exists (encodeDataSourceVariable (DataSource.id variable)),
      {| effectful := None; optional := None |}, identifier.
    repeat split; auto. now left. }
  unfold ListItem_onDelete at 1, deletable. rewrite Hused.
  now rewrite andb_false_r.
Qed.

(** X20. After [removeExpression] has deleted the prop under [propId],
    for want of a starting value, a variable is referenced exactly when a
    prop under another key contributes its id. *)
Theorem removeExpression_releases :
  forall (nanoid propId propName id : string) (w : World),
    JsSet.has id
      (usedVariables validateExpression decodeDataSourceVariable
         (props (stores (removeExpression nanoid None (Some propId) propName w))))
    = true
    <-> exists key p,
          In (key, p) (props (stores w))
          /\ key <> propId
          /\ contributes validateExpression decodeDataSourceVariable p id.
Proof.
  intros nanoid propId propName id w. rewrite used_has_contributes. simpl.
  split.
  - intros [p [Hin Hc]]. apply In_values in Hin. destruct Hin as [key Hin].
    apply In_delete in Hin. destruct Hin as [Hin Hkey]. now exists key, p.
  - intros [key [p [Hin [Hkey Hc]]]]. exists p. split; [|exact Hc].
    apply In_values. exists key. apply In_delete. now split.
Qed.

End Binding.

(** ** The expression editor *)
Section ExpressionEditor.

Variable validateExpression : string -> ValidateOptions -> Validation.
Variable encodeDataSourceVariable : string -> string.
Variable collectionComponent : string.
Variable trim : string -> string.

Lemma has_set {V : Type} (m : JsMap.t V) (k k' : string) (v : V) :
  JsMap.has k (JsMap.set k' v m) = true <-> k = k' \/ JsMap.has k m = true.
Proof.
  unfold JsMap.has. destruct (String.eqb_spec k k') as [->|Hne].
  - rewrite JsMapFacts.get_set_same. tauto.
  - rewrite (JsMapFacts.get_set_other _ _ _ _ Hne). tauto.
Qed.

Lemma editorAliases_loop (variables : list DataSource) (aliases : JsMap.t string)
    (k : string) :
  JsMap.has k
    (fold_left
       (fun aliases variable =>
          JsMap.set (encodeDataSourceVariable (DataSource.id variable))
            (DataSource.name variable) aliases)
       variables aliases) = true
  <-> JsMap.has k aliases = true
      \/ exists variable,
           In variable variables
           /\ k = encodeDataSourceVariable (DataSource.id variable).
Proof.
  revert aliases. induction variables as [|x xs IH]; intros aliases; simpl.
  - split; [now left | intros [H|[x [[] _]]]; exact H].
  - rewrite IH, has_set. split.
    + intros [[->|H]|[y [Hy E]]]; eauto 6.
    + intros [H|[y [[->|Hy] E]]]; eauto 6.
Qed.

(** The aliases are the encoded ids of the listed variables. *)
Lemma editorAliases_has (variables : list DataSource) (k : string) :
  JsMap.has k (editorAliases encodeDataSourceVariable variables) = true
  <-> exists variable,
        In variable variables
        /\ k = encodeDataSourceVariable (DataSource.id variable).
Proof.
  unfold editorAliases. rewrite editorAliases_loop.
  split; [intros [H|H]; [discriminate | exact H] | now right].
Qed.

(** X18. Leaving the expression editor with a text that is not blank
    either changes nothing, the edited text staying in the editor, or
    binds the prop to the text as it was typed and clears the editor
    state.  It binds exactly when the validation returns and every
    identifier that it finds is the encoded id of a variable visible at
    the selected instance. *)
Theorem onBlur_binds_visible_variables_only :
  forall (nanoid : string) (startingValue : option PropValue)
         (propId : option string) (propName text : string) (w : World),
    trim text <> EmptyString ->
    (ListPanel_onBlur validateExpression encodeDataSourceVariable
       collectionComponent trim nanoid startingValue propId propName (Some text) w
     = (None, setPropValue nanoid propId propName (ExpressionProp text) w)
     /\ exists identifiers code,
          validateExpression text {| effectful := None; optional := None |}
          = Accepted identifiers code
          /\ forall identifier,
               In identifier identifiers ->
               exists variable,
                 In variable (ListPanel_matchedVariables collectionComponent w)
                 /\ identifier = encodeDataSourceVariable (DataSource.id variable))
    \/ (ListPanel_onBlur validateExpression encodeDataSourceVariable
          collectionComponent trim nanoid startingValue propId propName (Some text) w
        = (Some text, w)
        /\ ((exists identifiers message,
                validateExpression text {| effectful := None; optional := None |}
                = Rejected identifiers message)
            \/ exists identifier,
                 In identifier
                   (identifiers_of
                      (validateExpression text
                         {| effectful := None; optional := None |}))
                 /\ forall variable,
                      In variable (ListPanel_matchedVariables collectionComponent w) ->
                      identifier
                      <> encodeDataSourceVariable (DataSource.id variable))).
Proof.
  intros nanoid startingValue propId propName text w Hblank.
  unfold ListPanel_onBlur. apply String.eqb_neq in Hblank. rewrite Hblank.
  unfold returns_with.
  destruct (forallb _ _) eqn:Hall.
  - destruct (validateExpression text _) as [identifiers code|identifiers message]
      eqn:E; simpl.
    + left. split; [reflexivity|]. exists identifiers, code. split; [reflexivity|].
      intros identifier Hin. rewrite forallb_forall in Hall.
      apply editorAliases_has. now apply Hall.
    + right. split; [reflexivity|]. left. now exists identifiers, message.
  - right. simpl. split; [reflexivity|]. right.
    assert (Hex : exists identifier,
               In identifier
                 (identifiers_of
                    (validateExpression text
                       {| effectful := None; optional := None |}))
               /\ JsMap.has identifier
                    (editorAliases encodeDataSourceVariable
                       (ListPanel_matchedVariables collectionComponent w)) = false).
    { revert Hall.
      induction (identifiers_of _) as [|x xs IH]; simpl; [discriminate|].
      destruct (JsMap.has x _) eqn:Hx; simpl.
      - intros H. destruct (IH H) as [y [Hy Hny]]. exists y. auto.
      - intros _. exists x. auto. }
    destruct Hex as [identifier [Hin Hnot]]. exists identifier. split; [exact Hin|].
    intros variable Hvar ->.
    assert (Hhas : JsMap.has (encodeDataSourceVariable (DataSource.id variable))
                     (editorAliases encodeDataSourceVariable
                        (ListPanel_matchedVariables collectionComponent w)) = true)
      by (apply editorAliases_has; now exists variable).
    congruence.
Qed.

End ExpressionEditor.

(** ** Instances of the further results *)

(** Instance of X1: [count], declared at [box], is edited while [list]
    is the target; its scope stays [box]. *)
Lemma count_keeps_its_scope :
  (forall d scope,
      JsMap.get (saved_id "unused" (Some Sample.count))
        (dataSources (stores (Sample.world (Some ["list"]) []))) = Some d ->
      DataSource.scopeInstanceId d = Some scope ->
      exists stored,
        JsMap.get (saved_id "unused" (Some Sample.count))
          (dataSources
             (stores (snd (saveVariable Expression.validateExpression
                             Expression.jsEval "unused" (Some Sample.count)
                             "count" "1" (Sample.world (Some ["list"]) [])))))
        = Some (variable (saved_id "unused" (Some Sample.count)) (Some scope)
                  "count" stored))
  /\ ((forall d,
          JsMap.get (saved_id "unused" (Some Sample.count))
            (dataSources (stores (Sample.world (Some ["list"]) []))) = Some d ->
          DataSource.scopeInstanceId d = None) ->
      exists stored,
        JsMap.get (saved_id "unused" (Some Sample.count))
          (dataSources
             (stores (snd (saveVariable Expression.validateExpression
                             Expression.jsEval "unused" (Some Sample.count)
                             "count" "1" (Sample.world (Some ["list"]) [])))))
        = Some (variable (saved_id "unused" (Some Sample.count))
                  (hd_error ["list"]) "count" stored)).
Proof.
  eapply (saveVariable_scope Expression.validateExpression Expression.jsEval
            "unused" (Some Sample.count) "count" "1");
    reflexivity.
Defined.

(** Instance of X3: a new variable goes after the four of the sample. *)
Lemma new_variable_is_appended :
  (JsMap.has (saved_id "total" None)
     (dataSources (stores (Sample.world (Some ["box"]) []))) = true ->
   keys_of (dataSources
              (stores (snd (saveVariable Expression.validateExpression
                              Expression.jsEval "total" None "total" "1"
                              (Sample.world (Some ["box"]) [])))))
   = keys_of (dataSources (stores (Sample.world (Some ["box"]) []))))
  /\ (JsMap.has (saved_id "total" None)
        (dataSources (stores (Sample.world (Some ["box"]) []))) = false ->
      keys_of (dataSources
                 (stores (snd (saveVariable Expression.validateExpression
                                 Expression.jsEval "total" None "total" "1"
                                 (Sample.world (Some ["box"]) [])))))
      = (keys_of (dataSources (stores (Sample.world (Some ["box"]) [])))
           ++ [saved_id "total" None])%list).
Proof.
  eapply (saveVariable_order Expression.validateExpression Expression.jsEval
            "total" None "total" "1");
    reflexivity.
Defined.

(** Instance of X5: [a] occurs twice in the text and once in the
    message. *)
Lemma repeated_identifier_is_listed_once :
  error (parseVariableValue Expression.validateExpression Expression.jsEval
           "a + b * a")
  = Some ("Cannot use variables "
          ++ String.concat ", " (first_occurrences ["a"; "b"; "a"])
          ++ " as variable value")
  /\ NoDup (first_occurrences ["a"; "b"; "a"])
  /\ (forall id, In id (first_occurrences ["a"; "b"; "a"]) <-> In id ["a"; "b"; "a"]).
Proof.
  apply (parseVariableValue_lists_first_occurrences Expression.validateExpression
           Expression.jsEval "a + b * a" ["a"; "b"; "a"] "a + b * a");
    [reflexivity | discriminate].
Defined.

(** Instance of X6: the conversion of [feed], saved twice. *)
Lemma feed_converted_twice :
  fst (saveVariable Expression.validateExpression Expression.jsEval "unused"
         (Some Sample.feed) "feed" "[1, 2]"
         (snd (saveVariable Expression.validateExpression Expression.jsEval
                 "unused" (Some Sample.feed) "feed" "[1, 2]"
                 (Sample.world (Some ["box"]) []))))
  = None
  /\ stores (snd (saveVariable Expression.validateExpression Expression.jsEval
                    "unused" (Some Sample.feed) "feed" "[1, 2]"
                    (snd (saveVariable Expression.validateExpression
                            Expression.jsEval "unused" (Some Sample.feed) "feed"
                            "[1, 2]" (Sample.world (Some ["box"]) [])))))
     = stores (snd (saveVariable Expression.validateExpression Expression.jsEval
                      "unused" (Some Sample.feed) "feed" "[1, 2]"
                      (Sample.world (Some ["box"]) []))).
Proof.
  eapply (saveVariable_twice Expression.validateExpression Expression.jsEval
            "unused" (Some Sample.feed) "feed" "[1, 2]");
    reflexivity.
Defined.

(** Instance of X9: a new variable [total] with text [0], nothing
    selected. *)
Lemma save_without_selection_closes :
  VariableValuePanel_onSave Expression.validateExpression Expression.jsEval
    "fresh" None (Sample.panel "total" "0") (Sample.world None [])
  = (closed_once (Sample.panel "total" "0"), Sample.world None []).
Proof.
  apply (onSave_closes_without_selection Expression.validateExpression
           Expression.jsEval "fresh" None (Sample.panel "total" "0")
           (Sample.world None []));
    [discriminate | reflexivity | reflexivity | reflexivity].
Defined.

(** Instance of X10: the text [a + 1] on the resource variable [feed]. *)
Lemma save_with_identifier_stays_open :
  VariableValuePanel_onSave Expression.validateExpression Expression.jsEval
    "fresh" (Some Sample.feed) (Sample.panel "feed" "a + 1")
    (Sample.world (Some ["box"]) [])
  = (with_valueErrors ["Cannot use variables a as variable value"]
       (Sample.panel "feed" "a + 1"),
     Sample.world (Some ["box"]) []).
Proof.
  apply (proj2 (onSave_errors_keep_open Expression.validateExpression
                  Expression.jsEval "fresh" (Some Sample.feed)
                  (Sample.panel "feed" "a + 1") (Sample.world (Some ["box"]) [])));
    [discriminate | reflexivity | reflexivity].
Defined.

(** Instance of X11: [title] gets a literal value; the name handed to
    [setPropValue] is not the one of the prop. *)
Lemma title_keeps_its_name :
  JsMap.get (prop_id Sample.title)
    (props (stores (setPropValue "fresh" (Some "title") "other" Instances.plain
                      Instances.titled)))
  = Some {| prop_id := prop_id Sample.title;
            prop_instanceId := prop_instanceId Sample.title;
            prop_name := prop_name Sample.title;
            prop_value := Instances.plain |}
  /\ (forall k,
         k <> prop_id Sample.title ->
         JsMap.get k
           (props (stores (setPropValue "fresh" (Some "title") "other"
                             Instances.plain Instances.titled)))
         = JsMap.get k (props (stores Instances.titled)))
  /\ dataSources (stores (setPropValue "fresh" (Some "title") "other"
                            Instances.plain Instances.titled))
     = dataSources (stores Instances.titled)
  /\ resources (stores (setPropValue "fresh" (Some "title") "other"
                          Instances.plain Instances.titled))
     = resources (stores Instances.titled)
  /\ instances (stores (setPropValue "fresh" (Some "title") "other"
                          Instances.plain Instances.titled))
     = instances (stores Instances.titled).
Proof.
  apply (setPropValue_updates_existing "fresh" "title" "other" Instances.plain
           Sample.title ["box"; "list"] Instances.titled);
    reflexivity.
Defined.

(** Instance of X12: a [propId] that the store does not hold. *)
Lemma missing_prop_gets_fresh_id :
  JsMap.get "fresh"
    (props (stores (setPropValue "fresh" (Some "missing") "alt" Instances.plain
                      Instances.titled)))
  = Some {| prop_id := "fresh";
            prop_instanceId := hd_error ["box"; "list"];
            prop_name := "alt";
            prop_value := Instances.plain |}
  /\ (forall k,
         k <> "fresh" ->
         JsMap.get k
           (props (stores (setPropValue "fresh" (Some "missing") "alt"
                             Instances.plain Instances.titled)))
         = JsMap.get k (props (stores Instances.titled))).
Proof.
  apply (proj2 (setPropValue_creates "fresh" (Some "missing") "alt"
                  Instances.plain Instances.titled) ["box"; "list"]);
    [reflexivity | intros id [= <-]; reflexivity].
Defined.

(** Instance of X13: the binding of [title] is removed with nothing
    selected. *)
Lemma title_removed_without_selection :
  JsMap.get "title"
    (props (stores (removeExpression "unused" None (Some "title") "title"
                      (Sample.world None [("title", Sample.title)]))))
  = None
  /\ removeExpression "unused" (Some Instances.plain) (Some "title") "title"
       (Sample.world None [("title", Sample.title)])
     = Sample.world None [("title", Sample.title)].
Proof.
  split.
  - apply (proj1 (removeExpression_branches "unused" (Some "title") "title"
                    (Sample.world None [("title", Sample.title)]))
             "title" eq_refl).
  - apply (proj1 (proj2 (removeExpression_branches "unused" (Some "title") "title"
                           (Sample.world None [("title", Sample.title)])))).
    reflexivity.
Defined.

(** Instance of X14: [count] is visible at [box] and stays visible when
    the ancestors [list] and [root] are appended. *)
Lemma count_visible_under_ancestors :
  In Sample.count
     (selectedInstanceVariables "ws:collection" (Some (["box"] ++ ["list"; "root"])%list)
        (dataSources (Sample.data [])) (instances (Sample.data []))).
Proof.
  apply (selectedInstanceVariables_monotone "ws:collection" ["box"] ["list"; "root"]).
  left. reflexivity.
Defined.

(** Instance of X15: [item], the parameter of the collection [list], seen
    from [box] inside [list] and from [list] itself. *)
Lemma item_visible_inside_list :
  (hd_error ["box"; "list"] <> Some "list" ->
   In (parameter "item" (Some "list") "item")
      (selectedInstanceVariables "ws:collection" (Some ["box"; "list"])
         (dataSources (Sample.data [])) (instances (Sample.data []))))
  /\ (hd_error ["box"; "list"] = Some "list" ->
      (forall inst, JsMap.get "list" (instances (Sample.data [])) = Some inst ->
                    component inst <> "ws:collection") ->
      In (parameter "item" (Some "list") "item")
         (selectedInstanceVariables "ws:collection" (Some ["box"; "list"])
            (dataSources (Sample.data [])) (instances (Sample.data []))))
  /\ (forall inst,
         hd_error ["box"; "list"] = Some "list" ->
         JsMap.get "list" (instances (Sample.data [])) = Some inst ->
         component inst = "ws:collection" ->
         ~ In (parameter "item" (Some "list") "item")
             (selectedInstanceVariables "ws:collection" (Some ["box"; "list"])
                (dataSources (Sample.data [])) (instances (Sample.data [])))).
Proof.
  apply (parameter_hidden_only_at_collection "ws:collection" ["box"; "list"]
           (dataSources (Sample.data [])) (instances (Sample.data []))
           "item" "list" "item").
  - right. left. reflexivity.
  - right. left. reflexivity.
Defined.

(** Instance of X16: the resource variable [feed] at its own instance. *)
Lemma feed_visible_at_box :
  In Sample.feed
     (selectedInstanceVariables "ws:collection" (Some ["box"])
        (dataSources (Sample.data [])) (instances (Sample.data [])))
  <-> In Sample.feed (JsMap.values (dataSources (Sample.data [])))
      /\ in_scope ["box"] Sample.feed.
Proof.
  apply (selectedInstanceVariables_not_parameter "ws:collection").
  discriminate.
Defined.

(** Instance of X17: [count] is selected in [title]. *)
Lemma count_selected_in_title :
  deletable Sample.count
    (usedVariables Expression.validateExpression
       Expression.decodeDataSourceVariable (props (stores Instances.titled)))
  = false
  /\ ListItem_onDelete Expression.validateExpression
       Expression.decodeDataSourceVariable Sample.count Instances.titled
     = Instances.titled.
Proof.
  apply (selected_variable_is_not_deletable Expression.validateExpression
           Expression.decodeDataSourceVariable (Some "title") Sample.title
           ["count"] Sample.count Instances.titled);
    reflexivity.
Defined.

(** Instance of X19: [count] is selected for a new prop and its delete
    button is clicked. *)
Lemma count_protected_after_select :
  ListItem_onDelete Expression.validateExpression
    Expression.decodeDataSourceVariable Sample.count
    (ListItem_onSelect Expression.encodeDataSourceVariable "title" None "title"
       Sample.count (Sample.world (Some ["box"]) []))
  = ListItem_onSelect Expression.encodeDataSourceVariable "title" None "title"
      Sample.count (Sample.world (Some ["box"]) []).
Proof.
  apply (bound_variable_is_protected Expression.validateExpression
           Expression.decodeDataSourceVariable
           Expression.encodeDataSourceVariable "title" None "title" Sample.count
           ["box"] (Sample.world (Some ["box"]) []));
    [reflexivity|].
  exists "$ws$dataSource$count". split; [now left | reflexivity].
Defined.

(** Instance of X18: the encoded id of [count] is typed for [title] with
    [box] selected. *)
Lemma count_typed_for_title :
  (ListPanel_onBlur Expression.validateExpression
     Expression.encodeDataSourceVariable "ws:collection" Instances.trim
     "fresh" None (Some "title") "title" (Some "$ws$dataSource$count")
     Instances.titled
   = (None,
      setPropValue "fresh" (Some "title") "title"
        (ExpressionProp "$ws$dataSource$count") Instances.titled)
   /\ exists identifiers code,
        Expression.validateExpression "$ws$dataSource$count"
          {| effectful := None; optional := None |}
        = Accepted identifiers code
        /\ forall identifier,
             In identifier identifiers ->
             exists variable,
               In variable (ListPanel_matchedVariables "ws:collection"
                              Instances.titled)
               /\ identifier
                  = Expression.encodeDataSourceVariable (DataSource.id variable))
  \/ (ListPanel_onBlur Expression.validateExpression
        Expression.encodeDataSourceVariable "ws:collection" Instances.trim
        "fresh" None (Some "title") "title" (Some "$ws$dataSource$count")
        Instances.titled
      = (Some "$ws$dataSource$count", Instances.titled)
      /\ ((exists identifiers message,
              Expression.validateExpression "$ws$dataSource$count"
                {| effectful := None; optional := None |}
              = Rejected identifiers message)
          \/ exists identifier,
               In identifier
                 (identifiers_of
                    (Expression.validateExpression "$ws$dataSource$count"
                       {| effectful := None; optional := None |}))
               /\ forall variable,
                    In variable (ListPanel_matchedVariables "ws:collection"
                                   Instances.titled) ->
                    identifier
                    <> Expression.encodeDataSourceVariable (DataSource.id variable))).
Proof.
  apply (onBlur_binds_visible_variables_only Expression.validateExpression
           Expression.encodeDataSourceVariable "ws:collection" Instances.trim
           "fresh" None (Some "title") "title" "$ws$dataSource$count"
           Instances.titled).
  discriminate.
Defined.

(** The two outcomes on the sample: with [box] selected the encoded id
    of [count] is bound; with the collection [list] itself selected the
    encoded id of its parameter [item] is refused and stays in the
    editor; a blank text takes the way of [removeExpression]. *)
Example onBlur_on_sample :
  ListPanel_onBlur Expression.validateExpression
    Expression.encodeDataSourceVariable "ws:collection" Instances.trim
    "fresh" None (Some "title") "title" (Some "$ws$dataSource$count")
    Instances.titled
  = (None,
     setPropValue "fresh" (Some "title") "title"
       (ExpressionProp "$ws$dataSource$count") Instances.titled)
  /\ ListPanel_onBlur Expression.validateExpression
       Expression.encodeDataSourceVariable "ws:collection" Instances.trim
       "fresh" None (Some "title") "title" (Some "$ws$dataSource$item")
       (Sample.world (Some ["list"]) [])
     = (Some "$ws$dataSource$item", Sample.world (Some ["list"]) [])
  /\ ListPanel_onBlur Expression.validateExpression
       Expression.encodeDataSourceVariable "ws:collection" Instances.trim
       "fresh" None (Some "title") "title" (Some "  ") Instances.titled
     = (None, removeExpression "fresh" None (Some "title") "title" Instances.titled).
Proof. repeat split. Qed.

(** ** Validations that throw after the callback has run *)

(** C4, the claim as stated fails: on the validator that reports while
    it walks, the text [b + f()] has handed [b] to the callback when the
    call makes the validation throw, and the error of
    [parseVariableValue] is the thrown message, which does not name
    [b]. *)
Lemma late_throw_names_no_identifier :
  identifiers_of
    (Walking.validateExpression "b + f()"
       {| effectful := None; optional := Some true |})
  = ["b"]
  /\ parseVariableValue Walking.validateExpression Expression.jsEval "b + f()"
     = {| value := None; error := Some "Cannot call f" |}
  /\ ~ names "Cannot call f" "b".
Proof.
  split; [reflexivity|]. split; [reflexivity|].
  intros [before [after H]].
  do 13 (destruct before as [|? before]; [discriminate H | injection H as _ H]).
  destruct before; discriminate H.
Qed.

(** C5, the claim as stated fails: on the same validator the text of
    the prop [calling] is rejected, for the call in it, after the
    identifier of [count] has reached the callback, and the prop
    contributes [count] to the used set. *)
Lemma late_throw_contributes :
  Walking.validateExpression (propExpression (Some Sample.calling))
    {| effectful := None; optional := None |}
  = Rejected ["$ws$dataSource$count"] "Cannot call f"
  /\ usedVariables Walking.validateExpression Expression.decodeDataSourceVariable
       [("calling", Sample.calling)]
     = ["count"]
  /\ usedVariables Walking.validateExpression Expression.decodeDataSourceVariable []
     = [].
Proof. repeat split. Qed.

(** ** The identifier codec of this file *)

Lemma escape_char_is_name (c : ascii) :
  all_chars Expression.isNamePart (Expression.escape_char c) = true.
Proof. destruct c as [[] [] [] [] [] [] [] []]; reflexivity. Qed.

Lemma unescape_escape_char (c : ascii) (rest : string) :
  Expression.unescape (Expression.escape_char c ++ rest)
  = option_map (String c) (Expression.unescape rest).
Proof. destruct c as [[] [] [] [] [] [] [] []]; reflexivity. Qed.

Lemma unescape_escape (id : string) :
  Expression.unescape (Expression.escape id) = Some id.
Proof.
  induction id as [|c id IH]; simpl; [reflexivity|].
  now rewrite unescape_escape_char, IH.
Qed.

Lemma all_chars_app (p : ascii -> bool) (a b : string) :
  all_chars p (a ++ b) = all_chars p a && all_chars p b.
Proof.
  induction a as [|c a IH]; simpl; [reflexivity|].
  now rewrite IH, andb_assoc.
Qed.

Lemma escape_is_name (id : string) :
  all_chars Expression.isNamePart (Expression.escape id) = true.
Proof.
  induction id as [|c id IH]; simpl; [reflexivity|].
  now rewrite all_chars_app, escape_char_is_name, IH.
Qed.

(** The codec round trip, for every id. *)
Lemma decode_encode (id : string) :
  Expression.decodeDataSourceVariable (Expression.encodeDataSourceVariable id)
  = Some id.
Proof.
  unfold Expression.decodeDataSourceVariable, Expression.encodeDataSourceVariable.
  simpl. apply unescape_escape.
Qed.

(** An identifier without the reserved prefix decodes to nothing. *)
Lemma decode_other (name : string) :
  String.prefix Expression.dataSourceVariablePrefix name = false ->
  Expression.decodeDataSourceVariable name = None.
Proof.
  unfold Expression.decodeDataSourceVariable.
  generalize Expression.dataSourceVariablePrefix as p. intros p. revert name.
  induction p as [|c p IH]; intros [|c' name]; simpl; try discriminate; auto.
  destruct (Ascii.ascii_dec c c') as [->|Hne].
  - rewrite Ascii.eqb_refl. apply IH.
  - intros _. apply Ascii.eqb_neq in Hne. now rewrite Hne.
Qed.

(** An encoded id is made of identifier characters and starts with the
    dollar sign of the prefix. *)
Lemma encode_is_identifier (id : string) :
  all_chars Expression.isNamePart (Expression.encodeDataSourceVariable id) = true
  /\ exists rest, Expression.encodeDataSourceVariable id = String "$" rest.
Proof.
  split.
  - unfold Expression.encodeDataSourceVariable.
    rewrite all_chars_app, escape_is_name. reflexivity.
  - eexists. reflexivity.
Qed.

Lemma span_all (p : ascii -> bool) (s : string) :
  all_chars p s = true -> Expression.span p s = (s, EmptyString).
Proof.
  induction s as [|c s IH]; simpl; [reflexivity|].
  intros H. apply andb_true_iff in H. destruct H as [Hc Hs].
  now rewrite Hc, (IH Hs).
Qed.

Lemma tokens_of_name (rest : string) :
  all_chars Expression.isNamePart rest = true ->
  Expression.tokens (String "$" rest) = Some [Expression.TName (String "$" rest)].
Proof.
  intros H. unfold Expression.tokens. cbn [String.length Expression.lex].
  change (Expression.isSpace "$") with false.
  change (Expression.isDigit "$") with false.
  change (Expression.isNameStart "$") with true. cbv iota.
  rewrite (span_all Expression.isNamePart (String "$" rest)) by exact H.
  reflexivity.
Qed.

(** The validator of this file reads an encoded id as one identifier,
    whatever the id and the options are. *)
Lemma validateExpression_encoded (id : string) (options : ValidateOptions) :
  Expression.validateExpression (Expression.encodeDataSourceVariable id) options
  = Accepted [Expression.encodeDataSourceVariable id]
      (Expression.encodeDataSourceVariable id).
Proof.
  destruct (encode_is_identifier id) as [Hname [rest E]].
  rewrite E in *. unfold Expression.validateExpression.
  simpl in Hname. rewrite (tokens_of_name rest Hname).
  destruct (match effectful options with Some b => b | None => false end);
    reflexivity.
Qed.

(** Hence, on this language, the condition under which a bound variable
    is protected holds for every id. *)
Lemma encoded_id_is_found (id : string) :
  exists identifier,
    In identifier
      (identifiers_of
         (Expression.validateExpression (Expression.encodeDataSourceVariable id)
            {| effectful := None; optional := None |}))
    /\ Expression.decodeDataSourceVariable identifier = Some id.
Proof.
  exists (Expression.encodeDataSourceVariable id).
  rewrite validateExpression_encoded. split; [now left | apply decode_encode].
Qed.

(** An id with a dash, which an identifier cannot hold as it is. *)
Example dash_is_escaped :
  Expression.encodeDataSourceVariable "a-b" = "$ws$dataSource$a_045b"
  /\ Expression.validateExpression (Expression.encodeDataSourceVariable "a-b")
       {| effectful := None; optional := None |}
     = Accepted ["$ws$dataSource$a_045b"] "$ws$dataSource$a_045b"
  /\ Expression.decodeDataSourceVariable "$ws$dataSource$a_045b" = Some "a-b".
Proof. repeat split. Qed.

(** A variable whose id holds a dash is protected like any other once a
    prop is bound to it. *)
Example dashed_variable_is_protected :
  ListItem_onDelete Expression.validateExpression
    Expression.decodeDataSourceVariable
    (variable "a-b" (Some "box") "total" (NumberValue (S754_zero false)))
    (ListItem_onSelect Expression.encodeDataSourceVariable "title" None "title"
       (variable "a-b" (Some "box") "total" (NumberValue (S754_zero false)))
       (Sample.world (Some ["box"]) []))
  = ListItem_onSelect Expression.encodeDataSourceVariable "title" None "title"
      (variable "a-b" (Some "box") "total" (NumberValue (S754_zero false)))
      (Sample.world (Some ["box"]) []).
Proof. reflexivity. Qed.
